(** * OanderTrader dashboard: a shallow embedding of [Docs/script.js]

    The script defines one class, [CryptoTradingBot], whose instance holds a
    few fields ([isConnected], [botRunning], [signalsToday], [startTime], ...)
    and whose methods run as handlers of socket events, button clicks and a
    one second timer.  Every handler runs to completion, so a handler is a
    function from the state before it to the state after it.

    Conventions of the embedding.
    - A JavaScript string is a [string] holding its UTF-8 bytes.  The
      patterns the script searches for are ASCII, and an ASCII byte never
      occurs inside a multi-byte sequence, so searching bytes and searching
      UTF-16 code units agree on every well-formed string.
    - An optional property ([undefined] when absent) is an [option].
    - Integral numbers (counters, millisecond clock readings) are [nat] and
      [Z]; the script keeps them far below 2^53, where the arithmetic of
      doubles on integers is exact.  The one fractional number, an
      instrument's price, is kept abstract (see [Section Dashboard]).
    - The page is a store of nodes; [getElementById] and [querySelector] are
      finite maps into that store, so two look-ups may find the same node. *)

From Stdlib Require Import ZArith Ascii String Lia.
From stdpp Require Import base option list gmap strings pretty fin_maps.
From Equations Require Import Equations.

Local Open Scope Z_scope.

(** ** Built-ins of the language used by the script *)

Module JS.

(** [ToBoolean] on a string: only the empty string is falsy. *)
Definition truthy_string (s : string) : bool :=
  match s with
  | EmptyString => false
  | String _ _ => true
  end.

(** [ToBoolean] on an optional string: [undefined] is falsy too. *)
Definition truthy (o : option string) : bool :=
  match o with
  | Some s => truthy_string s
  | None => false
  end.

(** [s.startsWith(pat)] *)
Fixpoint startsWith (pat s : string) : bool :=
  match pat, s with
  | EmptyString, _ => true
  | String _ _, EmptyString => false
  | String a pat', String b s' => if decide (a = b) then startsWith pat' s' else false
  end.

(** [s.includes(pat)]: [pat] occurs at some position of [s]. *)
Fixpoint includes (s pat : string) : bool :=
  startsWith pat s ||
  match s with
  | EmptyString => false
  | String _ s' => includes s' pat
  end.

(** The string made of the given bytes. *)
Fixpoint bytes (l : list nat) : string :=
  match l with
  | [] => EmptyString
  | b :: l' => String (ascii_of_nat b) (bytes l')
  end.

(** [WhiteSpace] and [LineTerminator] code points, as UTF-8:
    TAB, LF, VT, FF, CR, SP, U+00A0, U+1680, U+2000..U+200A, U+2028, U+2029,
    U+202F, U+205F, U+3000 and U+FEFF. *)
Definition whiteSpace : list string :=
  map bytes
    [ [9%nat]; [10%nat]; [11%nat]; [12%nat]; [13%nat]; [32%nat];
      [194; 160]%nat; [225; 154; 128]%nat;
      [226; 128; 128]%nat; [226; 128; 129]%nat; [226; 128; 130]%nat;
      [226; 128; 131]%nat; [226; 128; 132]%nat; [226; 128; 133]%nat;
      [226; 128; 134]%nat; [226; 128; 135]%nat; [226; 128; 136]%nat;
      [226; 128; 137]%nat; [226; 128; 138]%nat;
      [226; 128; 168]%nat; [226; 128; 169]%nat; [226; 128; 175]%nat;
      [226; 129; 159]%nat; [227; 128; 128]%nat; [239; 187; 191]%nat ].

(** Drop the first [n] bytes. *)
Fixpoint drop_bytes (n : nat) (s : string) : string :=
  match n, s with
  | O, _ => s
  | S _, EmptyString => EmptyString
  | S n', String _ s' => drop_bytes n' s'
  end.

(** Number of bytes of the white space character [s] starts with, if any. *)
Definition leadingWhiteSpace (s : string) : option nat :=
  String.length <$> List.find (fun w => startsWith w s) whiteSpace.

(** [TrimString(s, start)]; every round drops at least one byte, so
    [String.length s] rounds are enough (see [trimStart_done]). *)
Fixpoint trimStart_loop (fuel : nat) (s : string) : string :=
  match fuel with
  | O => s
  | S fuel' =>
      match leadingWhiteSpace s with
      | Some n => trimStart_loop fuel' (drop_bytes n s)
      | None => s
      end
  end.

Definition trimStart (s : string) : string :=
  trimStart_loop (String.length s) s.

(** Value of a digit in the given radix (10 or 16). *)
Definition digitValue (radix : Z) (c : ascii) : option Z :=
  let n := Z.of_nat (nat_of_ascii c) in
  let v :=
    if (48 <=? n) && (n <=? 57) then Some (n - 48)
    else if (97 <=? n) && (n <=? 122) then Some (n - 87)
    else if (65 <=? n) && (n <=? 90) then Some (n - 55)
    else None in
  match v with
  | Some d => if d <? radix then Some d else None
  | None => None
  end.

(** Read the longest run of digits; [acc] is [None] until a digit is seen. *)
Fixpoint readDigits (radix : Z) (s : string) (acc : option Z) : option Z :=
  match s with
  | EmptyString => acc
  | String c s' =>
      match digitValue radix c with
      | Some d => readDigits radix s' (Some (default 0 acc * radix + d))
      | None => acc
      end
  end.

(** [parseInt(s)] with no radix argument.  [None] is [NaN]; the result is the
    mathematical integer (the script shows it only for percentages), and
    [-0] is identified with [0]: both are falsy and both print as "0". *)
Definition parseInt (s : string) : option Z :=
  let s1 := trimStart s in
  let '(sign, s2) :=
    match s1 with
    | String "-"%char r => (-1, r)
    | String "+"%char r => (1, r)
    | _ => (1, s1)
    end in
  let '(radix, s3) :=
    match s2 with
    | String "0"%char (String "x"%char r) => (16, r)
    | String "0"%char (String "X"%char r) => (16, r)
    | _ => (10, s2)
    end in
  (fun z => sign * z) <$> readDigits radix s3 None.

(** [n || 0] for a number [n]: [NaN] and zero give [0]. *)
Definition orZero (n : option Z) : Z := default 0 n.

(** [n.toString()] for an integer below 10^21: its decimal digits. *)
Definition toString (n : Z) : string := pretty n.

(** [fill] repeated and cut to exactly [n] bytes ([fill] is ASCII here). *)
Fixpoint filler (n : nat) (fill cur : string) : string :=
  match n with
  | O => EmptyString
  | S n' =>
      match cur with
      | String c cur' => String c (filler n' fill cur')
      | EmptyString =>
          match fill with
          | String c cur' => String c (filler n' fill cur')
          | EmptyString => EmptyString
          end
      end
  end.

(** [s.padStart(targetLength, fill)] *)
Definition padStart (targetLength : nat) (fill s : string) : string :=
  if (targetLength <=? String.length s)%nat then s
  else if decide (fill = EmptyString) then s
  else filler (targetLength - String.length s) fill fill +:+ s.

End JS.

(** ** Data received from the backend *)

(** [active_trade] of an instrument; every property may be absent. *)
Record ActiveTrade := {
  risk_level : option string;
  confidence : option string;
  recommendation : option string }.

(** ** Display mapper *)

(** The object [{ text, class }] returned by [mapRiskLevel]. *)
Record RiskDisplay := { risk_text : string; risk_class : string }.

(** The object [{ text, action, class }] returned by [mapRecommendation]. *)
Record RecommendationDisplay := {
  rec_text : string; rec_action : string; rec_class : string }.

(** [mapRiskLevel(riskLevel)]: a [switch] on the string, by strict equality. *)
Definition mapRiskLevel (riskLevel : option string) : RiskDisplay :=
  if decide (riskLevel = Some "LOW") then
    {| risk_text := "LOW RISK"; risk_class := "low" |}
  else if decide (riskLevel = Some "MEDIUM") then
    {| risk_text := "MEDIUM RISK"; risk_class := "medium" |}
  else if decide (riskLevel = Some "HIGH") then
    {| risk_text := "HIGH RISK"; risk_class := "high" |}
  else if decide (riskLevel = Some "VERY HIGH") then
    {| risk_text := "VERY HIGH RISK"; risk_class := "very-high" |}
  else
    {| risk_text := "ANALYZING"; risk_class := "" |}.

(** [mapRecommendation(recommendation)] *)
Definition mapRecommendation (recommendation : option string) : RecommendationDisplay :=
  match recommendation with
  | Some r =>
      if negb (JS.truthy_string r) then
        {| rec_text := "Collecting market data..."; rec_action := ""; rec_class := "" |}
      else if JS.includes r "STRONG BUY" then
        {| rec_text := "AI recommends:"; rec_action := "STRONG BUY 🚀"; rec_class := "buy" |}
      else if JS.includes r "STRONG SELL" then
        {| rec_text := "AI recommends:"; rec_action := "STRONG SELL 📉"; rec_class := "sell" |}
      else if JS.includes r "DO NOT TRADE" || JS.includes r "AVOID" then
        {| rec_text := "AI recommends:"; rec_action := "DO NOT TRADE ⚠️"; rec_class := "wait" |}
      else
        {| rec_text := "AI is analyzing..."; rec_action := "WAIT FOR SIGNAL"; rec_class := "wait" |}
  | None =>
      {| rec_text := "Collecting market data..."; rec_action := ""; rec_class := "" |}
  end.

(** [getStatusColor(status)] *)
Definition getStatusColor (status : string) : string :=
  if decide (status = "active") then "#00ff88"
  else if decide (status = "stopped") then "#ff4757"
  else if decide (status = "analyzing") then "#ffa500"
  else "#42f5d7".

(** [data.confidence] as [updateCryptoCards] builds it:
    [active_trade?.confidence || '0%']. *)
Definition cardConfidence (trade : option ActiveTrade) : string :=
  match trade ≫= confidence with
  | Some c => if JS.truthy_string c then c else "0%"
  | None => "0%"
  end.

(** [percentage] in [updateCryptoCard]: [parseInt(data.confidence) || 0]. *)
Definition percentage (confidence : string) : Z :=
  JS.orZero (JS.parseInt confidence).

(** ** The page *)

(** A child of an element: a text node, or an element with its class and
    text (the log entries the script creates are such elements). *)
Inductive ChildNode :=
| TextNode (data : string)
| ElementNode (class text : string).

(** What the script reads and writes of an element. *)
Record Element := {
  className : string;
  childNodes : list ChildNode;
  disabled : bool;
  opacity : string;      (* style.opacity *)
  background : string;   (* style.background *)
  width : string         (* style.width *) }.

(** The page: a store of elements, with the results of [getElementById] and
    of [querySelector] (from a node, by selector) as maps into the store. *)
Record Document := {
  nodes : gmap nat Element;
  byId : gmap string nat;
  bySelector : gmap (nat * string) nat }.

Module DOM.

Definition isElementNode (c : ChildNode) : bool :=
  match c with
  | ElementNode _ _ => true
  | TextNode _ => false
  end.

(** [el.children]: the element children, in order. *)
Definition children (cs : list ChildNode) : list ChildNode :=
  List.filter isElementNode cs.

Definition nodeText (c : ChildNode) : string :=
  match c with
  | TextNode d => d
  | ElementNode _ t => t
  end.

(** Getter of [el.textContent]: the text of the children, concatenated. *)
Definition textContent (e : Element) : string :=
  foldr (fun c acc => nodeText c +:+ acc) "" (childNodes e).

(** Setter of [el.textContent]: the children are replaced by one text node,
    or by nothing when the text is empty. *)
Definition set_textContent (s : string) (e : Element) : Element :=
  {| className := className e;
     childNodes := if JS.truthy_string s then [TextNode s] else [];
     disabled := disabled e; opacity := opacity e;
     background := background e; width := width e |}.

Definition set_className (s : string) (e : Element) : Element :=
  {| className := s; childNodes := childNodes e;
     disabled := disabled e; opacity := opacity e;
     background := background e; width := width e |}.

Definition set_childNodes (cs : list ChildNode) (e : Element) : Element :=
  {| className := className e; childNodes := cs;
     disabled := disabled e; opacity := opacity e;
     background := background e; width := width e |}.

Definition set_disabled (b : bool) (e : Element) : Element :=
  {| className := className e; childNodes := childNodes e;
     disabled := b; opacity := opacity e;
     background := background e; width := width e |}.

Definition set_opacity (s : string) (e : Element) : Element :=
  {| className := className e; childNodes := childNodes e;
     disabled := disabled e; opacity := s;
     background := background e; width := width e |}.

Definition set_background (s : string) (e : Element) : Element :=
  {| className := className e; childNodes := childNodes e;
     disabled := disabled e; opacity := opacity e;
     background := s; width := width e |}.

Definition set_width (s : string) (e : Element) : Element :=
  {| className := className e; childNodes := childNodes e;
     disabled := disabled e; opacity := opacity e;
     background := background e; width := s |}.

(** [document.getElementById(id)]: the node, or [None] for [null]. *)
Definition getElementById (d : Document) (id : string) : option nat :=
  match byId d !! id with
  | Some n => match nodes d !! n with Some _ => Some n | None => None end
  | None => None
  end.

(** [el.querySelector(selector)] for the element at node [n]. *)
Definition querySelector (d : Document) (n : nat) (selector : string) : option nat :=
  match bySelector d !! (n, selector) with
  | Some m => match nodes d !! m with Some _ => Some m | None => None end
  | None => None
  end.

(** A write to the element at node [n]. *)
Definition write (n : nat) (f : Element -> Element) (d : Document) : Document :=
  {| nodes := alter f n (nodes d); byId := byId d; bySelector := bySelector d |}.

(** The element an id names, for stating what is displayed. *)
Definition element (d : Document) (id : string) : option Element :=
  getElementById d id ≫= fun n => nodes d !! n.

End DOM.

(** The loop of [addLogEntry]:
    [while (children.length > 20) removeChild(lastChild)].
    [lastChild] is the last child node, a text node or an element. *)
Equations? trimLog (cs : list ChildNode) : list ChildNode by wf (length cs) lt :=
  trimLog cs with decide (20 < length (DOM.children cs))%nat => {
    | left _ := trimLog (removelast cs);
    | right _ := cs }.
Proof.
  destruct cs as [|c cs]; [simpl in *; lia|].
  rewrite removelast_firstn_len, length_firstn. simpl. lia.
Qed.

(** ** The dashboard *)

Set Implicit Arguments.

Section Dashboard.

(** An instrument's price is a fractional number.  The script only tests it
    for truthiness and shows [(price * 50000).toFixed(0)]; both are taken as
    given, for any representation [Number] of doubles. *)
Variable Number : Type.
Variable numberTruthy : Number -> bool.
Variable mockBtcPrice : Number -> string.

(** One entry of [instruments]. *)
Record InstrumentState := {
  price : option Number;
  active_trade : option ActiveTrade }.

(** The payload of [status_update] and the body of [/api/status]; the
    prefix keeps its properties apart from the fields of the instance. *)
Record Snapshot := {
  snap_bot_running : option bool;
  snap_instruments : option (gmap string InstrumentState) }.

(** The fields of the [CryptoTradingBot] instance, the page it draws on, the
    messages it has emitted on the socket (oldest first), and the number of
    [/api/status] requests still in flight. *)
Record State := {
  socket : bool;               (* [true]: a socket object; [false]: [null] *)
  isConnected : bool;
  botRunning : bool;
  instruments : gmap string InstrumentState;
  signalsToday : nat;
  successRate : nat;
  startTime : option Z;
  document : Document;
  emitted : list string;
  pendingStatus : nat }.

Definition set_isConnected (b : bool) (s : State) : State :=
  {| socket := socket s; isConnected := b; botRunning := botRunning s;
     instruments := instruments s; signalsToday := signalsToday s;
     successRate := successRate s; startTime := startTime s;
     document := document s; emitted := emitted s;
     pendingStatus := pendingStatus s |}.

(** [botRunning] and [startTime] are always assigned together. *)
Definition set_running (b : bool) (t : option Z) (s : State) : State :=
  {| socket := socket s; isConnected := isConnected s; botRunning := b;
     instruments := instruments s; signalsToday := signalsToday s;
     successRate := successRate s; startTime := t;
     document := document s; emitted := emitted s;
     pendingStatus := pendingStatus s |}.

Definition set_instruments (i : gmap string InstrumentState) (s : State) : State :=
  {| socket := socket s; isConnected := isConnected s; botRunning := botRunning s;
     instruments := i; signalsToday := signalsToday s;
     successRate := successRate s; startTime := startTime s;
     document := document s; emitted := emitted s;
     pendingStatus := pendingStatus s |}.

Definition set_signalsToday (n : nat) (s : State) : State :=
  {| socket := socket s; isConnected := isConnected s; botRunning := botRunning s;
     instruments := instruments s; signalsToday := n;
     successRate := successRate s; startTime := startTime s;
     document := document s; emitted := emitted s;
     pendingStatus := pendingStatus s |}.

(** A method that only draws on the page. *)
Definition draw (f : Document -> Document) (s : State) : State :=
  {| socket := socket s; isConnected := isConnected s; botRunning := botRunning s;
     instruments := instruments s; signalsToday := signalsToday s;
     successRate := successRate s; startTime := startTime s;
     document := f (document s); emitted := emitted s;
     pendingStatus := pendingStatus s |}.

(** [this.socket.emit(message)] *)
Definition emit (message : string) (s : State) : State :=
  {| socket := socket s; isConnected := isConnected s; botRunning := botRunning s;
     instruments := instruments s; signalsToday := signalsToday s;
     successRate := successRate s; startTime := startTime s;
     document := document s; emitted := emitted s ++ [message];
     pendingStatus := pendingStatus s |}.

Definition set_pendingStatus (n : nat) (s : State) : State :=
  {| socket := socket s; isConnected := isConnected s; botRunning := botRunning s;
     instruments := instruments s; signalsToday := signalsToday s;
     successRate := successRate s; startTime := startTime s;
     document := document s; emitted := emitted s;
     pendingStatus := n |}.

(** [updateBotControls()] *)
Definition updateBotControls (running : bool) (d : Document) : Document :=
  match DOM.getElementById d "start-bot", DOM.getElementById d "stop-bot" with
  | Some startBtn, Some stopBtn =>
      if running then
        let d := DOM.write startBtn (DOM.set_disabled true) d in
        let d := DOM.write stopBtn (DOM.set_disabled false) d in
        let d := DOM.write startBtn (DOM.set_opacity "0.5") d in
        DOM.write stopBtn (DOM.set_opacity "1") d
      else
        let d := DOM.write startBtn (DOM.set_disabled false) d in
        let d := DOM.write stopBtn (DOM.set_disabled true) d in
        let d := DOM.write startBtn (DOM.set_opacity "1") d in
        DOM.write stopBtn (DOM.set_opacity "0.5") d
  | _, _ => d
  end.

(** [updateConnectionStatus(status, className)] *)
Definition updateConnectionStatus (status className : string) (d : Document) : Document :=
  match DOM.getElementById d "connection-status" with
  | Some statusElement =>
      let d := DOM.write statusElement (DOM.set_textContent status) d in
      DOM.write statusElement (DOM.set_className ("status-value " +:+ className)) d
  | None => d
  end.

(** [updateSignalIndicator(text, status)] *)
Definition updateSignalIndicator (text status : string) (d : Document) : Document :=
  match DOM.getElementById d "signalIndicator" with
  | Some indicator =>
      let d :=
        match DOM.querySelector d indicator "span" with
        | Some span => DOM.write span (DOM.set_textContent text) d
        | None => d
        end in
      match DOM.querySelector d indicator ".pulse-dot" with
      | Some pulseDot => DOM.write pulseDot (DOM.set_background (getStatusColor status)) d
      | None => d
      end
  | None => d
  end.

(** The argument [data] of [updateCryptoCard]. *)
Record CardData := {
  card_price : string;
  card_risk : RiskDisplay;
  card_confidence : string;
  card_recommendation : RecommendationDisplay }.

(** [updateCryptoCard(prefix, data)] *)
Definition updateCryptoCard (prefix : string) (data : CardData) (d : Document) : Document :=
  let d :=
    match DOM.getElementById d (prefix +:+ "-price") with
    | Some priceElement =>
        if decide (card_price data = "Multiple Pairs") then d
        else DOM.write priceElement (DOM.set_textContent ("$" +:+ card_price data)) d
    | None => d
    end in
  let d :=
    match DOM.getElementById d (prefix +:+ "-risk") with
    | Some riskElement =>
        let d := DOM.write riskElement (DOM.set_textContent (risk_text (card_risk data))) d in
        DOM.write riskElement
          (DOM.set_className ("risk-value " +:+ risk_class (card_risk data))) d
    | None => d
    end in
  let confidenceElement := DOM.getElementById d (prefix +:+ "-confidence") in
  let confidenceBar := DOM.getElementById d (prefix +:+ "-confidence-bar") in
  let d :=
    match confidenceElement with
    | Some el => DOM.write el (DOM.set_textContent (card_confidence data)) d
    | None => d
    end in
  let d :=
    match confidenceBar with
    | Some bar =>
        DOM.write bar
          (DOM.set_width (JS.toString (percentage (card_confidence data)) +:+ "%")) d
    | None => d
    end in
  match DOM.getElementById d (prefix +:+ "-recommendation") with
  | Some recommendationElement =>
      let textElement := DOM.querySelector d recommendationElement ".recommendation-text" in
      let actionElement := DOM.querySelector d recommendationElement ".recommendation-action" in
      let d :=
        match textElement with
        | Some el =>
            DOM.write el (DOM.set_textContent (rec_text (card_recommendation data))) d
        | None => d
        end in
      match actionElement with
      | Some el =>
          let d :=
            DOM.write el (DOM.set_textContent (rec_action (card_recommendation data))) d in
          DOM.write el
            (DOM.set_className
               ("recommendation-action " +:+ rec_class (card_recommendation data))) d
      | None => d
      end
  | None => d
  end.

(** [instruments[key] || {}] *)
Definition instrumentOrEmpty (insts : gmap string InstrumentState) (key : string)
  : InstrumentState :=
  default {| price := None; active_trade := None |} (insts !! key).

(** The card built from one instrument; [priceText] is the card's price. *)
Definition cardOf (priceText : string) (inst : InstrumentState) : CardData :=
  {| card_price := priceText;
     card_risk := mapRiskLevel (active_trade inst ≫= risk_level);
     card_confidence := cardConfidence (active_trade inst);
     card_recommendation := mapRecommendation (active_trade inst ≫= recommendation) |}.

(** [btcData.price ? (btcData.price * 50000).toFixed(0) : '0'] *)
Definition btcPriceText (inst : InstrumentState) : string :=
  match price inst with
  | Some p => if numberTruthy p then mockBtcPrice p else "0"
  | None => "0"
  end.

(** [updateCryptoCards(instruments)] *)
Definition updateCryptoCards (insts : gmap string InstrumentState) (d : Document) : Document :=
  let btcData := instrumentOrEmpty insts "EUR_USD" in
  let d := updateCryptoCard "btc" (cardOf (btcPriceText btcData) btcData) d in
  let altData := instrumentOrEmpty insts "USD_JPY" in
  updateCryptoCard "alt" (cardOf "Multiple Pairs" altData) d.

(** [Object.values(obj)] *)
Definition Object_values (obj : gmap string InstrumentState) : list InstrumentState :=
  snd <$> map_to_list obj.

(** [inst.active_trade && inst.active_trade.recommendation], as a condition. *)
Definition hasSignal (inst : InstrumentState) : bool :=
  match active_trade inst with
  | Some trade => JS.truthy (recommendation trade)
  | None => false
  end.

(** [activeSignals] after the [forEach] of [updateStats]. *)
Definition countActiveSignals (insts : gmap string InstrumentState) : nat :=
  fold_left (fun activeSignals inst =>
               if hasSignal inst then S activeSignals else activeSignals)
            (Object_values insts) 0%nat.

(** The mock success rate shown by [updateStats]. *)
Definition rateOf (signals : nat) : nat :=
  if (0 <? signals)%nat then Nat.min 95 (75 + signals * 5) else 0%nat.

(** [updateStats(data)] *)
Definition updateStats (data : Snapshot) (s : State) : State :=
  let s :=
    draw (fun d =>
            match DOM.getElementById d "market-status" with
            | Some marketStatus =>
                DOM.write marketStatus
                  (DOM.set_textContent
                     (if botRunning s then "🟢 ACTIVE" else "🔴 INACTIVE")) d
            | None => d
            end) s in
  let s :=
    match snap_instruments data with
    | Some insts =>
        let activeSignals := countActiveSignals insts in
        if (signalsToday s <? activeSignals)%nat
        then set_signalsToday activeSignals s
        else s
    | None => s
    end in
  let s :=
    draw (fun d =>
            match DOM.getElementById d "signals-today" with
            | Some signalsElement =>
                DOM.write signalsElement
                  (DOM.set_textContent (JS.toString (Z.of_nat (signalsToday s)))) d
            | None => d
            end) s in
  draw (fun d =>
          match DOM.getElementById d "success-rate" with
          | Some successElement =>
              DOM.write successElement
                (DOM.set_textContent
                   (JS.toString (Z.of_nat (rateOf (signalsToday s))) +:+ "%")) d
          | None => d
          end) s.

(** [updateDashboard(data)] *)
Definition updateDashboard (data : Snapshot) (s : State) : State :=
  match snap_instruments data with
  | Some insts =>
      let s := set_instruments insts s in
      let s := draw (updateCryptoCards insts) s in
      updateStats data s
  | None => s
  end.

(** [addLogEntry(message)]; [timestamp] is what
    [new Date().toLocaleTimeString()] returns at the call. *)
Definition addLogEntry (timestamp message : string) (d : Document) : Document :=
  match DOM.getElementById d "activity-log" with
  | Some logContainer =>
      let entry := ElementNode "log-entry" (timestamp +:+ " - " +:+ message) in
      DOM.write logContainer
        (fun e => DOM.set_childNodes (trimLog (entry :: childNodes e)) e) d
  | None => d
  end.

(** [startBot()] *)
Definition startBot (timestamp : string) (s : State) : State :=
  if isConnected s && socket s then
    let s := emit "start_bot" s in
    draw (addLogEntry timestamp "🔄 Starting trading bot...") s
  else
    draw (addLogEntry timestamp "❌ Cannot start bot - No connection to server") s.

(** [stopBot()] *)
Definition stopBot (timestamp : string) (s : State) : State :=
  if isConnected s && socket s then
    let s := emit "stop_bot" s in
    draw (addLogEntry timestamp "🔄 Stopping trading bot...") s
  else s.

(** The text the timer writes for an elapsed time in milliseconds.
    [Math.floor(a / b)] is [a / b] on [Z], and [%] is [Z.rem]. *)
Definition formatUptime (uptime : Z) : string :=
  let hours := uptime / (1000 * 60 * 60) in
  let minutes := Z.rem uptime (1000 * 60 * 60) / (1000 * 60) in
  let seconds := Z.rem uptime (1000 * 60) / 1000 in
  JS.padStart 2 "0" (JS.toString hours) +:+ ":" +:+
  JS.padStart 2 "0" (JS.toString minutes) +:+ ":" +:+
  JS.padStart 2 "0" (JS.toString seconds).

(** [if (this.startTime)]: [null] and [0] are falsy. *)
Definition startTimeTruthy (t : option Z) : bool :=
  match t with
  | Some t => negb (t =? 0)
  | None => false
  end.

(** The callback [startUptimeCounter] gives to [setInterval]; [now] is
    [Date.now()] at the call. *)
Definition uptimeTick (now : Z) (s : State) : State :=
  if startTimeTruthy (startTime s) then
    let uptime := now - default 0 (startTime s) in
    draw (fun d =>
            match DOM.getElementById d "uptime" with
            | Some uptimeElement =>
                DOM.write uptimeElement (DOM.set_textContent (formatUptime uptime)) d
            | None => d
            end) s
  else s.

(** The handler of [connect]; the request of [loadInitialStatus] stays in
    flight until it settles. *)
Definition onConnect (s : State) : State :=
  let s := set_isConnected true s in
  let s := draw (updateConnectionStatus "🟢 Connected" "connected") s in
  set_pendingStatus (S (pendingStatus s)) s.

(** The handler of [disconnect]. *)
Definition onDisconnect (s : State) : State :=
  let s := set_isConnected false s in
  draw (updateConnectionStatus "🔴 Disconnected" "error") s.

(** The handler of [bot_started]. *)
Definition onBotStarted (now : Z) (timestamp : string) (s : State) : State :=
  let s := set_running true (Some now) s in
  let s := draw (updateBotControls (botRunning s)) s in
  let s := draw (updateSignalIndicator "🚀 Bot Active - Scanning Markets..." "active") s in
  draw (addLogEntry timestamp "🚀 Trading bot started - Analyzing crypto markets") s.

(** The handler of [bot_stopped]. *)
Definition onBotStopped (timestamp : string) (s : State) : State :=
  let s := set_running false None s in
  let s := draw (updateBotControls (botRunning s)) s in
  let s := draw (updateSignalIndicator "⏸️ Bot Stopped" "stopped") s in
  draw (addLogEntry timestamp "⏸️ Trading bot stopped") s.

(** [data.bot_running], as a condition. *)
Definition snapshotRunning (data : Snapshot) : bool :=
  default false (snap_bot_running data).

(** [loadInitialStatus()] from the point where the response has arrived. *)
Definition onStatusLoaded (now : Z) (data : Snapshot) (s : State) : State :=
  let s :=
    if snapshotRunning data then
      let s := set_running true (Some now) s in
      draw (updateSignalIndicator "🚀 Bot Active - Scanning Markets..." "active") s
    else s in
  let s := draw (updateBotControls (botRunning s)) s in
  updateDashboard data s.

(** The state [new CryptoTradingBot()] leaves on a page; [ioWorks] tells
    whether [io()] returned a socket or threw. *)
Definition construct (ioWorks : bool) (page : Document) : State :=
  let s :=
    {| socket := ioWorks; isConnected := false; botRunning := false;
       instruments := ∅; signalsToday := 0; successRate := 0;
       startTime := None; document := page; emitted := [];
       pendingStatus := 0 |} in
  if ioWorks then s
  else draw (updateConnectionStatus "Connection Failed" "error") s.

(** What can happen after construction.  Clock readings come with the event:
    [now] is [Date.now()], [timestamp] the local time string of the log. *)
Inductive Event :=
| Connect
| Disconnect
| StatusUpdate (data : Snapshot)
| BotStarted (now : Z) (timestamp : string)
| BotStopped (timestamp : string)
| StatusLoaded (now : Z) (data : Snapshot)
| StatusFailed
| ClickStart (timestamp : string)
| ClickStop (timestamp : string)
| Tick (now : Z).

(** Socket handlers exist only on a socket, click listeners only on a button
    found at construction, and a status response only for a request made. *)
Definition handle (s : State) (e : Event) : State :=
  match e with
  | Connect => if socket s then onConnect s else s
  | Disconnect => if socket s then onDisconnect s else s
  | StatusUpdate data => if socket s then updateDashboard data s else s
  | BotStarted now timestamp => if socket s then onBotStarted now timestamp s else s
  | BotStopped timestamp => if socket s then onBotStopped timestamp s else s
  | StatusLoaded now data =>
      match pendingStatus s with
      | S n => onStatusLoaded now data (set_pendingStatus n s)
      | O => s
      end
  | StatusFailed =>
      match pendingStatus s with
      | S n => set_pendingStatus n s
      | O => s
      end
  | ClickStart timestamp =>
      match DOM.getElementById (document s) "start-bot" with
      | Some _ => startBot timestamp s
      | None => s
      end
  | ClickStop timestamp =>
      match DOM.getElementById (document s) "stop-bot" with
      | Some _ => stopBot timestamp s
      | None => s
      end
  | Tick now => uptimeTick now s
  end.

(** The state after a sequence of events. *)
Definition run (s : State) (events : list Event) : State :=
  fold_left handle events s.

End Dashboard.

Unset Implicit Arguments.

Arguments Connect {Number}.
Arguments Disconnect {Number}.
Arguments StatusUpdate {Number} data.
Arguments BotStarted {Number} now timestamp.
Arguments BotStopped {Number} timestamp.
Arguments StatusLoaded {Number} now data.
Arguments StatusFailed {Number}.
Arguments ClickStart {Number} timestamp.
Arguments ClickStop {Number} timestamp.
Arguments Tick {Number} now.

(** The time shown for a number of elapsed seconds, as the dashboard's
    description words it: hours, minutes and seconds, each written with at
    least two digits. *)
Definition twoDigits (n : Z) : string :=
  if n <? 10 then "0" +:+ pretty n else pretty n.

Definition clockText (seconds : Z) : string :=
  twoDigits (seconds / 3600) +:+ ":" +:+
  twoDigits ((seconds / 60) mod 60) +:+ ":" +:+
  twoDigits (seconds mod 60).

(** The four objects [mapRecommendation] returns for a non-empty text. *)
Definition buyDisplay : RecommendationDisplay :=
  {| rec_text := "AI recommends:"; rec_action := "STRONG BUY 🚀"; rec_class := "buy" |}.
Definition sellDisplay : RecommendationDisplay :=
  {| rec_text := "AI recommends:"; rec_action := "STRONG SELL 📉"; rec_class := "sell" |}.
Definition avoidDisplay : RecommendationDisplay :=
  {| rec_text := "AI recommends:"; rec_action := "DO NOT TRADE ⚠️"; rec_class := "wait" |}.
Definition waitDisplay : RecommendationDisplay :=
  {| rec_text := "AI is analyzing..."; rec_action := "WAIT FOR SIGNAL"; rec_class := "wait" |}.

(** [pat] occurs in [s]. *)
Definition Substring (pat s : string) : Prop :=
  exists pre post, s = pre +:+ pat +:+ post.

(** The element children of the log panel, newest first. *)
Definition logEntries (d : Document) : list ChildNode :=
  match DOM.element d "activity-log" with
  | Some e => DOM.children (childNodes e)
  | None => []
  end.

(** The entry [addLogEntry] creates. *)
Definition logEntry (timestamp message : string) : ChildNode :=
  ElementNode "log-entry" (timestamp +:+ " - " +:+ message).

(** [addLogEntry] called once for each (timestamp, message), in order. *)
Definition appendAll (ms : list (string * string)) (d : Document) : Document :=
  fold_left (fun d m => addLogEntry m.1 m.2 d) ms d.

(** A page for examples: one blank element per id, numbered in order, and
    the descendants the script selects inside two of them. *)
Definition blank : Element :=
  {| className := ""; childNodes := []; disabled := false;
     opacity := ""; background := ""; width := "" |}.

Definition pageIds : list string :=
  [ "start-bot"; "stop-bot"; "connection-status"; "signalIndicator";
    "btc-price"; "btc-risk"; "btc-confidence"; "btc-confidence-bar";
    "btc-recommendation"; "alt-risk"; "alt-confidence"; "alt-confidence-bar";
    "alt-recommendation"; "market-status"; "signals-today"; "success-rate";
    "activity-log"; "uptime" ].

Definition demoPage : Document :=
  {| nodes := list_to_map ((fun i => (i, blank)) <$> seq 0 24);
     byId := list_to_map (imap (fun i id => (id, i)) pageIds);
     bySelector :=
       list_to_map
         [ ((3, "span"), 18); ((3, ".pulse-dot"), 19);
           ((8, ".recommendation-text"), 20); ((8, ".recommendation-action"), 21);
           ((12, ".recommendation-text"), 22); ((12, ".recommendation-action"), 23) ]%nat |}.

(** Twenty-five log messages, "m1" at "t1" to "m25" at "t25". *)
Definition demoMessages : list (string * string) :=
  (fun i : nat => ("t" +:+ pretty i, "m" +:+ pretty i)) <$> seq 1 25.

(** Prices as integers, for examples. *)
Definition demoTruthy (p : Z) : bool := negb (p =? 0).
Definition demoPrice (p : Z) : string := pretty (p * 50000).

(** The dashboard just constructed on the example page, with a socket. *)
Definition demoState : State Z := construct Z true demoPage.

(** A snapshot with one instrument that carries a recommendation. *)
Definition demoSnapshot : Snapshot Z :=
  {| snap_bot_running := Some true;
     snap_instruments :=
       Some {[ "EUR_USD" :=
                 {| price := Some 1;
                    active_trade :=
                      Some {| risk_level := Some "HIGH";
                              confidence := Some "60%";
                              recommendation := Some "STRONG SELL now" |} |} ]} |}.

(** The card of an instrument traded at 82% confidence. *)
Definition demoCard : CardData :=
  cardOf "55000"
    {| price := Some 1;
       active_trade :=
         Some {| risk_level := Some "LOW"; confidence := Some "82%";
                 recommendation := Some "STRONG BUY" |} |}.

(** A snapshot that only reports the run state. *)
Definition demoStatusOnly : Snapshot Z :=
  {| snap_bot_running := Some true; snap_instruments := None |}.

(** The object [mapRecommendation] returns for an absent or empty text. *)
Definition placeholderDisplay : RecommendationDisplay :=
  {| rec_text := "Collecting market data..."; rec_action := ""; rec_class := "" |}.
(** ** Drawing as patches

    Apart from the log, every write of the script assigns a constant to a
    property of an element.  A [Patch] records such assignments for one
    element; a drawing method then amounts to one patch per node, chosen
    from the look-ups alone.  These definitions serve the proofs about
    redrawing; the methods themselves are the ones above. *)

Record Patch := {
  p_className : option string;
  p_childNodes : option (list ChildNode);
  p_disabled : option bool;
  p_opacity : option string;
  p_background : option string;
  p_width : option string }.

Definition noPatch : Patch :=
  {| p_className := None; p_childNodes := None; p_disabled := None;
     p_opacity := None; p_background := None; p_width := None |}.

Definition applyPatch (p : Patch) (e : Element) : Element :=
  {| className := default (className e) (p_className p);
     childNodes := default (childNodes e) (p_childNodes p);
     disabled := default (disabled e) (p_disabled p);
     opacity := default (opacity e) (p_opacity p);
     background := default (background e) (p_background p);
     width := default (width e) (p_width p) |}.

(** The later assignment wins. *)
Definition later {A} (new old : option A) : option A :=
  match new with
  | Some x => Some x
  | None => old
  end.

Definition overPatch (new old : Patch) : Patch :=
  {| p_className := later (p_className new) (p_className old);
     p_childNodes := later (p_childNodes new) (p_childNodes old);
     p_disabled := later (p_disabled new) (p_disabled old);
     p_opacity := later (p_opacity new) (p_opacity old);
     p_background := later (p_background new) (p_background old);
     p_width := later (p_width new) (p_width old) |}.

(** The page with the patch of every node applied. *)
Definition patched (P : nat -> Patch) (d : Document) : Document :=
  {| nodes := map_imap (fun k e => Some (applyPatch (P k) e)) (nodes d);
     byId := byId d;
     bySelector := bySelector d |}.

(** Two pages on which every look-up finds the same node. *)
Definition sameStructure (d d' : Document) : Prop :=
  byId d = byId d' /\ bySelector d = bySelector d' /\
  forall k, is_Some (nodes d !! k) <-> is_Some (nodes d' !! k).

(** [g] draws by patches that all satisfy [Q]. *)
Definition Patching (Q : Patch -> Prop) (g : Document -> Document) : Prop :=
  forall d, exists P,
    (forall k, Q (P k)) /\
    forall d', sameStructure d' d -> g d' = patched P d'.

(** A patch that adds no entry to an element. *)
Definition Benign (p : Patch) : Prop :=
  match p_childNodes p with
  | Some cs => DOM.children cs = []
  | None => True
  end.

(** A benign patch that leaves [disabled] alone as well. *)
Definition Quiet (p : Patch) : Prop :=
  Benign p /\ p_disabled p = None.

(** The shapes of the script's look-ups: act on the element with this id,
    or on the descendant this selector finds, when there is one. *)
Definition onId (id : string) (k : nat -> Document -> Document) (d : Document)
  : Document :=
  match DOM.getElementById d id with
  | Some n => k n d
  | None => d
  end.

Definition onSelector (n : nat) (selector : string)
           (k : nat -> Document -> Document) (d : Document) : Document :=
  match DOM.querySelector d n selector with
  | Some m => k m d
  | None => d
  end.

(** The three writes of [updateStats], for a run state and a counter. *)
Definition drawStats (running : bool) (signals : nat) : Document -> Document :=
  onId "success-rate"
    (fun n => DOM.write n (DOM.set_textContent
                             (JS.toString (Z.of_nat (rateOf signals)) +:+ "%")))
  ∘ onId "signals-today"
      (fun n => DOM.write n (DOM.set_textContent (JS.toString (Z.of_nat signals))))
  ∘ onId "market-status"
      (fun n => DOM.write n (DOM.set_textContent
                               (if running then "🟢 ACTIVE" else "🔴 INACTIVE"))).

(** The buttons show this run state: the start button is disabled exactly
    when the bot runs, the stop button exactly when it does not. *)
Definition controlsShow (running : bool) (d : Document) : Prop :=
  forall startBtn stopBtn,
    DOM.getElementById d "start-bot" = Some startBtn ->
    DOM.getElementById d "stop-bot" = Some stopBtn ->
    startBtn <> stopBtn ->
    disabled <$> nodes d !! startBtn = Some running /\
    disabled <$> nodes d !! stopBtn = Some (negb running).
(** The assignments of the script, as patches. *)
Definition textPatch (s : string) : Patch :=
  {| p_className := None;
     p_childNodes := Some (if JS.truthy_string s then [TextNode s] else []);
     p_disabled := None; p_opacity := None; p_background := None; p_width := None |}.

Definition classPatch (s : string) : Patch :=
  {| p_className := Some s; p_childNodes := None; p_disabled := None;
     p_opacity := None; p_background := None; p_width := None |}.

Definition disabledPatch (b : bool) : Patch :=
  {| p_className := None; p_childNodes := None; p_disabled := Some b;
     p_opacity := None; p_background := None; p_width := None |}.

Definition opacityPatch (s : string) : Patch :=
  {| p_className := None; p_childNodes := None; p_disabled := None;
     p_opacity := Some s; p_background := None; p_width := None |}.

Definition backgroundPatch (s : string) : Patch :=
  {| p_className := None; p_childNodes := None; p_disabled := None;
     p_opacity := None; p_background := Some s; p_width := None |}.

Definition widthPatch (s : string) : Patch :=
  {| p_className := None; p_childNodes := None; p_disabled := None;
     p_opacity := None; p_background := None; p_width := Some s |}.

(** A look-up whose result is used later, and writes to an element that
    may be missing. *)
Definition withId (id : string) (F : option nat -> Document -> Document)
           (d : Document) : Document :=
  F (DOM.getElementById d id) d.

Definition withSelector (n : nat) (selector : string)
           (F : option nat -> Document -> Document) (d : Document) : Document :=
  F (DOM.querySelector d n selector) d.

Definition maybeWrite (o : option nat) (f : Element -> Element) (d : Document)
  : Document :=
  match o with
  | Some el => DOM.write el f d
  | None => d
  end.

Definition maybeWrite2 (o : option nat) (f g : Element -> Element) (d : Document)
  : Document :=
  match o with
  | Some el => DOM.write el g (DOM.write el f d)
  | None => d
  end.

(** [updateCryptoCard] as a chain of look-ups and writes, in its order. *)
Definition drawCard (prefix : string) (data : CardData) : Document -> Document :=
  onId (prefix +:+ "-recommendation")
    (fun r =>
       withSelector r ".recommendation-text"
         (fun textElement =>
            withSelector r ".recommendation-action"
              (fun actionElement =>
                 maybeWrite2 actionElement
                   (DOM.set_textContent (rec_action (card_recommendation data)))
                   (DOM.set_className
                      ("recommendation-action " +:+
                       rec_class (card_recommendation data)))
                 ∘ maybeWrite textElement
                     (DOM.set_textContent (rec_text (card_recommendation data))))))
  ∘ withId (prefix +:+ "-confidence")
      (fun confidenceElement =>
         withId (prefix +:+ "-confidence-bar")
           (fun confidenceBar =>
              maybeWrite confidenceBar
                (DOM.set_width
                   (JS.toString (percentage (card_confidence data)) +:+ "%"))
              ∘ maybeWrite confidenceElement
                  (DOM.set_textContent (card_confidence data))))
  ∘ withId (prefix +:+ "-risk")
      (fun riskElement =>
         maybeWrite2 riskElement
           (DOM.set_textContent (risk_text (card_risk data)))
           (DOM.set_className ("risk-value " +:+ risk_class (card_risk data))))
  ∘ onId (prefix +:+ "-price")
      (fun el d =>
         if decide (card_price data = "Multiple Pairs") then d
         else DOM.write el (DOM.set_textContent ("$" +:+ card_price data)) d).
(** What the handlers do to the page: patches, log entries, and sequences
    of these. *)
Inductive Drawing (Q : Patch -> Prop) : (Document -> Document) -> Prop :=
| drawing_patch g : Patching Q g -> Drawing Q g
| drawing_log timestamp message : Drawing Q (addLogEntry timestamp message)
| drawing_compose g2 g1 : Drawing Q g1 -> Drawing Q g2 -> Drawing Q (g2 ∘ g1).

Set Implicit Arguments.

(** Whether the handler of this event calls [updateBotControls]: the
    handlers of [bot_started] and [bot_stopped], on a socket, and the
    bootstrap response, when a request is in flight. *)
Definition setsControls (Number : Type) (s : State Number) (e : Event Number) : bool :=
  match e with
  | BotStarted _ _ | BotStopped _ => socket s
  | StatusLoaded _ _ => negb (pendingStatus s =? 0)%nat
  | _ => false
  end.

Unset Implicit Arguments.

(** * Properties *)

(** ** Strings *)

Lemma append_nil_l (s : string) : "" +:+ s = s.
Proof. reflexivity. Qed.

Lemma append_cons (a : ascii) (s t : string) : String a s +:+ t = String a (s +:+ t).
Proof. reflexivity. Qed.

Lemma append_assoc (s t u : string) : (s +:+ t) +:+ u = s +:+ (t +:+ u).
Proof.
  induction s as [|a s IH]; [reflexivity|].
  rewrite !append_cons, IH. reflexivity.
Qed.

Lemma startsWith_spec (pat s : string) :
  JS.startsWith pat s = true <-> exists post, s = pat +:+ post.
Proof.
  revert s. induction pat as [|a pat IH]; intros s; simpl.
  - split; [intros _; exists s; reflexivity | reflexivity].
  - destruct s as [|b s].
    + split; [discriminate | intros [post H]; rewrite append_cons in H; discriminate].
    + destruct (decide (a = b)) as [->|Hne].
      * rewrite IH. split; intros [post H]; exists post.
        -- rewrite append_cons, H. reflexivity.
        -- rewrite append_cons in H. congruence.
      * split; [discriminate|].
        intros [post H]. rewrite append_cons in H. congruence.
Qed.

Lemma includes_spec (s pat : string) :
  JS.includes s pat = true <-> Substring pat s.
Proof.
  unfold Substring. induction s as [|b s IH]; simpl.
  - rewrite orb_false_r, startsWith_spec. split.
    + intros [post H]. exists "", post. exact H.
    + intros [[|a pre] [post H]].
      * exists post. exact H.
      * rewrite append_cons in H. discriminate.
  - rewrite orb_true_iff, IH, startsWith_spec. split.
    + intros [[post H] | (pre & post & H)].
      * exists "", post. exact H.
      * exists (String b pre), post. rewrite append_cons, H. reflexivity.
    + intros ([|a pre] & post & H).
      * left. exists post. exact H.
      * right. exists pre, post. rewrite append_cons in H. congruence.
Qed.

Lemma includes_false (s pat : string) :
  JS.includes s pat = false <-> ~ Substring pat s.
Proof.
  rewrite <- includes_spec. destruct (JS.includes s pat); split; congruence.
Qed.

Lemma drop_bytes_length (n : nat) (s : string) :
  String.length (JS.drop_bytes n s) = (String.length s - n)%nat.
Proof.
  revert s. induction n as [|n IH]; intros s; simpl.
  - lia.
  - destruct s as [|a s]; simpl; [reflexivity | apply IH].
Qed.

Lemma leadingWhiteSpace_Some (s : string) (n : nat) :
  JS.leadingWhiteSpace s = Some n ->
  (String.length (JS.drop_bytes n s) < String.length s)%nat.
Proof.
  unfold JS.leadingWhiteSpace.
  destruct (List.find _ JS.whiteSpace) as [w|] eqn:Hfind; [|discriminate].
  intros [= <-]. apply List.find_some in Hfind as [Hin Hstart].
  assert (w <> "") as Hw.
  { revert Hin. generalize w. apply List.Forall_forall.
    unfold JS.whiteSpace. simpl. repeat constructor; discriminate. }
  apply startsWith_spec in Hstart as [post ->].
  rewrite drop_bytes_length.
  destruct w as [|a w]; [contradiction|]. simpl. lia.
Qed.

Lemma trimStart_loop_done (fuel : nat) (s : string) :
  (String.length s <= fuel)%nat ->
  JS.leadingWhiteSpace (JS.trimStart_loop fuel s) = None.
Proof.
  revert s. induction fuel as [|fuel IH]; intros s Hlen; simpl.
  - destruct s; [reflexivity | simpl in Hlen; lia].
  - destruct (JS.leadingWhiteSpace s) as [n|] eqn:Hws; [|exact Hws].
    apply IH. apply leadingWhiteSpace_Some in Hws. lia.
Qed.

(** The fuel of [trimStart] is enough: no white space is left in front. *)
Lemma trimStart_done (s : string) : JS.leadingWhiteSpace (JS.trimStart s) = None.
Proof. apply trimStart_loop_done. reflexivity. Qed.

Example parseInt_samples :
  JS.parseInt "82%" = Some 82 /\ JS.parseInt "" = None /\
  JS.parseInt "  -12px" = Some (-12) /\ JS.parseInt "0x1f" = Some 31 /\
  JS.parseInt "%" = None /\ JS.parseInt "0%" = Some 0.
Proof. repeat split; reflexivity. Qed.

Example padStart_samples :
  JS.padStart 2 "0" "7" = "07" /\ JS.padStart 2 "0" "123" = "123" /\
  JS.padStart 5 "ab" "x" = "ababx".
Proof. repeat split; reflexivity. Qed.

(** ** Display mapper *)

(** C1, as stated, fails: the level the backend model calls [VERY_HIGH] is
    not a label of the [switch], which spells it with a space, so
    "VERY_HIGH" falls through to the neutral pair. *)
Lemma mapRiskLevel_VERY_HIGH_is_neutral :
  mapRiskLevel (Some "VERY_HIGH") = {| risk_text := "ANALYZING"; risk_class := "" |} /\
  mapRiskLevel (Some "VERY_HIGH")
    <> {| risk_text := "VERY HIGH RISK"; risk_class := "very-high" |}.
Proof. split; [reflexivity | discriminate]. Qed.

(** C1, amended: [mapRiskLevel] is total; "LOW", "MEDIUM", "HIGH" and
    "VERY HIGH" (with a space) map to their fixed label and class, and every
    other input, absent or not, maps to the neutral pair "ANALYZING" with
    the empty class. *)
Theorem mapRiskLevel_cases :
  mapRiskLevel (Some "LOW") = {| risk_text := "LOW RISK"; risk_class := "low" |} /\
  mapRiskLevel (Some "MEDIUM") = {| risk_text := "MEDIUM RISK"; risk_class := "medium" |} /\
  mapRiskLevel (Some "HIGH") = {| risk_text := "HIGH RISK"; risk_class := "high" |} /\
  mapRiskLevel (Some "VERY HIGH")
    = {| risk_text := "VERY HIGH RISK"; risk_class := "very-high" |} /\
  forall riskLevel : option string,
    riskLevel <> Some "LOW" -> riskLevel <> Some "MEDIUM" ->
    riskLevel <> Some "HIGH" -> riskLevel <> Some "VERY HIGH" ->
    mapRiskLevel riskLevel = {| risk_text := "ANALYZING"; risk_class := "" |}.
Proof.
  repeat split; try reflexivity.
  intros r H1 H2 H3 H4. unfold mapRiskLevel.
  repeat case_decide; try contradiction. reflexivity.
Qed.

Lemma mapRiskLevel_cases_witness :
  mapRiskLevel None = {| risk_text := "ANALYZING"; risk_class := "" |} /\
  mapRiskLevel (Some "low") = {| risk_text := "ANALYZING"; risk_class := "" |}.
Proof.
  destruct mapRiskLevel_cases as (_ & _ & _ & _ & H).
  split; apply H; discriminate.
Defined.

(** C2, as stated, fails on the action text: the action carries a rocket
    after the words. *)
Lemma mapRecommendation_action_not_bare :
  rec_action (mapRecommendation (Some "STRONG BUY")) <> "STRONG BUY".
Proof. discriminate. Qed.

Lemma truthy_string_append (pre pat post : string) :
  JS.truthy_string pat = true -> JS.truthy_string (pre +:+ pat +:+ post) = true.
Proof.
  intros H. destruct pre; [|reflexivity].
  destruct pat; [discriminate|reflexivity].
Qed.

(** C2, amended: the recommendation is classified by the first of STRONG
    BUY, STRONG SELL, (DO NOT TRADE or AVOID) that occurs in it, with a
    fallback when none does.  Every string in which "STRONG BUY" occurs,
    whatever surrounds it, gets the class "buy" and the action
    "STRONG BUY 🚀" (the words followed by a rocket). *)
Theorem mapRecommendation_priority (r : string) :
  (Substring "STRONG BUY" r -> mapRecommendation (Some r) = buyDisplay) /\
  (~ Substring "STRONG BUY" r -> Substring "STRONG SELL" r ->
   mapRecommendation (Some r) = sellDisplay) /\
  (~ Substring "STRONG BUY" r -> ~ Substring "STRONG SELL" r ->
   Substring "DO NOT TRADE" r \/ Substring "AVOID" r ->
   mapRecommendation (Some r) = avoidDisplay) /\
  (~ Substring "STRONG BUY" r -> ~ Substring "STRONG SELL" r ->
   ~ Substring "DO NOT TRADE" r -> ~ Substring "AVOID" r -> r <> "" ->
   mapRecommendation (Some r) = waitDisplay).
Proof.
  unfold mapRecommendation.
  split; [|split; [|split]].
  - intros Hb. pose proof Hb as (pre & post & ->).
    rewrite truthy_string_append by reflexivity. simpl.
    apply includes_spec in Hb. rewrite Hb. reflexivity.
  - intros Hb Hs. pose proof Hs as (pre & post & ->).
    rewrite truthy_string_append by reflexivity. simpl.
    apply includes_false in Hb. apply includes_spec in Hs.
    rewrite Hb, Hs. reflexivity.
  - intros Hb Hs Ha.
    assert (JS.truthy_string r = true) as ->.
    { destruct Ha as [(pre & post & ->) | (pre & post & ->)];
        apply truthy_string_append; reflexivity. }
    apply includes_false in Hb, Hs. simpl. rewrite Hb, Hs.
    assert (JS.includes r "DO NOT TRADE" || JS.includes r "AVOID" = true) as ->;
      [|reflexivity].
    rewrite orb_true_iff, !includes_spec. exact Ha.
  - intros Hb Hs Hd Ha Hne.
    apply includes_false in Hb, Hs, Hd, Ha.
    destruct r; [contradiction|]. cbn [JS.truthy_string negb].
    rewrite Hb, Hs, Hd, Ha. reflexivity.
Qed.

Lemma mapRecommendation_priority_witness :
  mapRecommendation (Some "AVOID? no: STRONG SELL or STRONG BUY, DO NOT TRADE later")
  = buyDisplay.
Proof.
  apply mapRecommendation_priority.
  exists "AVOID? no: STRONG SELL or ", ", DO NOT TRADE later". reflexivity.
Defined.

(** ** The activity log *)

Lemma children_app (cs ds : list ChildNode) :
  DOM.children (cs ++ ds) = DOM.children cs ++ DOM.children ds.
Proof. apply List.filter_app. Qed.

Lemma children_idemp (cs : list ChildNode) :
  DOM.children (DOM.children cs) = DOM.children cs.
Proof.
  unfold DOM.children. induction cs as [|c cs IH]; [reflexivity|].
  simpl. destruct (DOM.isElementNode c) eqn:Hc; simpl; rewrite ?Hc, IH; reflexivity.
Qed.

(** One round of the loop: removing the last child node of a panel with more
    than twenty entries leaves the first twenty entries as they are. *)
Lemma removelast_keeps_first_20 (cs : list ChildNode) :
  (20 < length (DOM.children cs))%nat ->
  take 20 (DOM.children (removelast cs)) = take 20 (DOM.children cs).
Proof.
  destruct cs as [|x init _] using rev_ind.
  - simpl. lia.
  - rewrite removelast_last, children_app, length_app. intros Hlen.
    destruct x as [d | c t]; simpl in *.
    + rewrite app_nil_r. reflexivity.
    + rewrite take_app_le by lia. reflexivity.
Qed.

Lemma trimLog_children (cs : list ChildNode) :
  DOM.children (trimLog cs) = take 20 (DOM.children cs).
Proof.
  funelim (trimLog cs).
  - match goal with IH : DOM.children (trimLog _) = _ |- _ => rewrite IH end.
    apply removelast_keeps_first_20. assumption.
  - symmetry. apply take_ge. lia.
Qed.

Lemma prefix_removelast (cs : list ChildNode) : removelast cs `prefix_of` cs.
Proof.
  destruct cs as [|x init _] using rev_ind.
  - reflexivity.
  - rewrite removelast_last. apply prefix_app_r. reflexivity.
Qed.

(** The loop only removes child nodes from the end. *)
Lemma trimLog_prefix (cs : list ChildNode) : trimLog cs `prefix_of` cs.
Proof.
  funelim (trimLog cs).
  - etrans; [eassumption | apply prefix_removelast].
  - reflexivity.
Qed.

(** ** Writes to the page *)

Lemma nodes_write (n m : nat) (f : Element -> Element) (d : Document) :
  nodes (DOM.write n f d) !! m
  = if decide (n = m) then f <$> nodes d !! m else nodes d !! m.
Proof.
  unfold DOM.write. simpl. rewrite lookup_alter.
  case_decide; subst; reflexivity.
Qed.

Lemma getElementById_write (n : nat) (f : Element -> Element) (d : Document) (id : string) :
  DOM.getElementById (DOM.write n f d) id = DOM.getElementById d id.
Proof.
  unfold DOM.getElementById. change (byId (DOM.write n f d)) with (byId d).
  destruct (byId d !! id) as [k|]; [|reflexivity].
  rewrite nodes_write. case_decide; destruct (nodes d !! k); reflexivity.
Qed.

Lemma querySelector_write (n : nat) (f : Element -> Element) (d : Document)
      (k : nat) (selector : string) :
  DOM.querySelector (DOM.write n f d) k selector = DOM.querySelector d k selector.
Proof.
  unfold DOM.querySelector. change (bySelector (DOM.write n f d)) with (bySelector d).
  destruct (bySelector d !! (k, selector)) as [m|]; [|reflexivity].
  rewrite nodes_write. case_decide; destruct (nodes d !! m); reflexivity.
Qed.

Lemma getElementById_node (d : Document) (id : string) (n : nat) :
  DOM.getElementById d id = Some n -> exists e, nodes d !! n = Some e.
Proof.
  unfold DOM.getElementById. destruct (byId d !! id) as [k|]; [|discriminate].
  destruct (nodes d !! k) as [e|] eqn:He; [|discriminate].
  intros [= <-]. eauto.
Qed.

Lemma element_write_same (n : nat) (f : Element -> Element) (d : Document) (id : string) :
  DOM.getElementById d id = Some n ->
  DOM.element (DOM.write n f d) id = f <$> DOM.element d id.
Proof.
  intros H. unfold DOM.element. rewrite getElementById_write, H.
  change (nodes (DOM.write n f d) !! n = f <$> nodes d !! n).
  rewrite nodes_write, decide_True by reflexivity. reflexivity.
Qed.

Lemma element_absent (d : Document) (id : string) :
  DOM.getElementById d id = None -> DOM.element d id = None.
Proof. intros H. unfold DOM.element. rewrite H. reflexivity. Qed.

(** ** The activity log, on the page *)

Lemma logEntries_addLogEntry (timestamp message : string) (d : Document) :
  is_Some (DOM.getElementById d "activity-log") ->
  logEntries (addLogEntry timestamp message d)
  = take 20 (logEntry timestamp message :: logEntries d).
Proof.
  intros [n Hn]. unfold addLogEntry, logEntries. rewrite Hn.
  rewrite element_write_same by exact Hn.
  destruct (getElementById_node _ _ _ Hn) as [e He].
  assert (DOM.element d "activity-log" = Some e) as ->.
  { unfold DOM.element. rewrite Hn. exact He. }
  simpl. rewrite trimLog_children. reflexivity.
Qed.

Lemma logEntries_absent (d : Document) :
  DOM.getElementById d "activity-log" = None -> logEntries d = [].
Proof. intros H. unfold logEntries. rewrite element_absent by exact H. reflexivity. Qed.

Lemma getElementById_addLogEntry (timestamp message : string) (d : Document) (id : string) :
  DOM.getElementById (addLogEntry timestamp message d) id = DOM.getElementById d id.
Proof.
  unfold addLogEntry. destruct (DOM.getElementById d "activity-log"); [|reflexivity].
  apply getElementById_write.
Qed.

Lemma take_app_take {A} (n : nat) (l k : list A) :
  take n (l ++ take n k) = take n (l ++ k).
Proof.
  rewrite !take_app, take_take. f_equal. f_equal. lia.
Qed.

Lemma logEntries_appendAll (ms : list (string * string)) (d : Document) :
  is_Some (DOM.getElementById d "activity-log") ->
  (length (logEntries d) <= 20)%nat ->
  logEntries (appendAll ms d)
  = take 20 (reverse ((fun m => logEntry m.1 m.2) <$> ms) ++ logEntries d).
Proof.
  revert d. induction ms as [|[ts msg] ms IH]; intros d Hlog Hlen.
  - simpl. rewrite take_ge by exact Hlen. reflexivity.
  - change (appendAll ((ts, msg) :: ms) d) with (appendAll ms (addLogEntry ts msg d)).
    rewrite IH.
    + rewrite logEntries_addLogEntry by exact Hlog.
      rewrite take_app_take, fmap_cons, reverse_cons, <- app_assoc. reflexivity.
    + rewrite getElementById_addLogEntry. exact Hlog.
    + rewrite logEntries_addLogEntry by exact Hlog. rewrite length_take. lia.
Qed.

(** C5: after [addLogEntry] the log panel holds at most twenty entries; the
    new entry is first and the entries already there follow unchanged, the
    oldest dropped from the end.  Twenty-five calls on an empty panel leave
    exactly twenty entries: the last message first, the first five gone.
    The loop itself only cuts child nodes off the end. *)
Theorem addLogEntry_keeps_newest_20 :
  (forall timestamp message d,
     (length (logEntries (addLogEntry timestamp message d)) <= 20)%nat) /\
  (forall timestamp message d,
     is_Some (DOM.getElementById d "activity-log") ->
     logEntries (addLogEntry timestamp message d)
     = take 20 (logEntry timestamp message :: logEntries d)) /\
  (forall ms d,
     is_Some (DOM.getElementById d "activity-log") ->
     logEntries d = [] ->
     length ms = 25%nat ->
     logEntries (appendAll ms d)
     = reverse ((fun m => logEntry m.1 m.2) <$> drop 5 ms) /\
     length (logEntries (appendAll ms d)) = 20%nat) /\
  (forall cs, trimLog cs `prefix_of` cs).
Proof.
  split; [|split; [|split]]; [| | |apply trimLog_prefix].
  - intros ts msg d.
    destruct (DOM.getElementById d "activity-log") as [n|] eqn:Hn.
    + rewrite logEntries_addLogEntry by (rewrite Hn; eauto).
      rewrite length_take. lia.
    + unfold addLogEntry. rewrite Hn, logEntries_absent by exact Hn. simpl. lia.
  - apply logEntries_addLogEntry.
  - intros ms d Hlog Hempty Hlen.
    assert (logEntries (appendAll ms d)
            = reverse ((fun m => logEntry m.1 m.2) <$> drop 5 ms)) as Heq.
    { rewrite logEntries_appendAll; [|exact Hlog|rewrite Hempty; simpl; lia].
      rewrite Hempty, app_nil_r, take_reverse, length_fmap, Hlen, fmap_drop.
      reflexivity. }
    split; [exact Heq|].
    rewrite Heq, length_reverse, length_fmap, length_drop. lia.
Qed.

Lemma addLogEntry_keeps_newest_20_witness :
  logEntries (appendAll demoMessages demoPage)
  = reverse ((fun m => logEntry m.1 m.2) <$> drop 5 demoMessages) /\
  length (logEntries (appendAll demoMessages demoPage)) = 20%nat.
Proof.
  destruct addLogEntry_keeps_newest_20 as (_ & _ & H & _).
  apply H.
  - exists 16%nat. vm_compute. reflexivity.
  - vm_compute. reflexivity.
  - reflexivity.
Defined.

(** ** Confidence *)

Lemma percentage_unparsable (c : string) :
  JS.parseInt c = None -> percentage c = 0.
Proof. unfold percentage. intros ->. reflexivity. Qed.

Lemma cardConfidence_truthy (trade : option ActiveTrade) :
  JS.truthy_string (cardConfidence trade) = true.
Proof.
  unfold cardConfidence. destruct (trade ≫= confidence) as [c|]; [|reflexivity].
  destruct (JS.truthy_string c) eqn:Hc; [exact Hc | reflexivity].
Qed.

(** The width the confidence bar gets is written after every earlier write
    to the card, and the later writes set text and class only. *)
Lemma updateCryptoCard_bar_width (prefix : string) (data : CardData)
      (d : Document) (bar : nat) :
  DOM.getElementById d (prefix +:+ "-confidence-bar") = Some bar ->
  width <$> nodes (updateCryptoCard prefix data d) !! bar
  = Some (JS.toString (percentage (card_confidence data)) +:+ "%").
Proof.
  intros Hbar. destruct (getElementById_node _ _ _ Hbar) as [e He].
  unfold updateCryptoCard. cbv zeta.
  repeat first
    [ rewrite getElementById_write
    | rewrite querySelector_write
    | rewrite Hbar
    | match goal with
      | |- context [match DOM.getElementById d ?i with _ => _ end] =>
          destruct (DOM.getElementById d i)
      | |- context [match DOM.querySelector d ?n ?i with _ => _ end] =>
          destruct (DOM.querySelector d n i)
      | |- context [if decide (card_price data = ?p) then _ else _] =>
          destruct (decide (card_price data = p))
      end ];
    rewrite !nodes_write; repeat case_decide; try congruence;
    rewrite He; reflexivity.
Qed.

(** C4: the confidence shown as a bar is an integer for every input:
    "82%" gives 82, the empty string and a missing confidence give 0, and so
    does any text [parseInt] cannot read; the bar's width is that integer
    followed by a percent sign. *)
Theorem confidence_parsing :
  percentage "82%" = 82 /\
  percentage "" = 0 /\
  percentage (cardConfidence
                (Some {| risk_level := None; confidence := Some "82%";
                         recommendation := None |})) = 82 /\
  percentage (cardConfidence
                (Some {| risk_level := None; confidence := Some "";
                         recommendation := None |})) = 0 /\
  percentage (cardConfidence
                (Some {| risk_level := None; confidence := None;
                         recommendation := None |})) = 0 /\
  percentage (cardConfidence None) = 0 /\
  (forall c, JS.parseInt c = None -> percentage c = 0) /\
  (forall prefix data d bar,
     DOM.getElementById d (prefix +:+ "-confidence-bar") = Some bar ->
     width <$> nodes (updateCryptoCard prefix data d) !! bar
     = Some (JS.toString (percentage (card_confidence data)) +:+ "%")).
Proof.
  repeat split; try reflexivity.
  - apply percentage_unparsable.
  - apply updateCryptoCard_bar_width.
Qed.

(** ** Uptime *)

Lemma pretty_N_go_length (x : N) (s : string) :
  (String.length s <= String.length (pretty_N_go x s))%nat.
Proof.
  revert s. induction (N.lt_wf_0 x) as [x _ IH]; intros s.
  destruct (decide (x = 0)%N) as [->|Hx].
  - rewrite pretty_N_go_0. lia.
  - rewrite pretty_N_go_step by lia.
    etrans; [|apply IH; apply N.div_lt; lia]. simpl. lia.
Qed.

Lemma pretty_length_ge_10 (n : Z) :
  10 <= n -> (2 <= String.length (pretty n))%nat.
Proof.
  intros Hn. destruct n as [|p|p]; try lia.
  change (pretty (Z.pos p)) with (pretty (N.pos p)).
  unfold pretty, pretty_N. rewrite decide_False by discriminate.
  rewrite pretty_N_go_step by lia.
  rewrite pretty_N_go_step.
  - etrans; [|apply pretty_N_go_length]. simpl. lia.
  - apply N.div_str_pos. lia.
Qed.

Lemma one_digit (k : nat) :
  (k < 10)%nat ->
  String.length (pretty (Z.of_nat k)) = 1%nat /\
  JS.padStart 2 "0" (pretty (Z.of_nat k)) = "0" +:+ pretty (Z.of_nat k).
Proof. do 10 (destruct k as [|k]; [split; reflexivity|]). lia. Qed.

Lemma padStart_twoDigits (n : Z) :
  0 <= n -> JS.padStart 2 "0" (JS.toString n) = twoDigits n.
Proof.
  intros Hn. unfold twoDigits, JS.toString.
  destruct (Z.ltb_spec n 10) as [Hlt|Hge].
  - rewrite <- (Z2Nat.id n) by exact Hn. apply one_digit. lia.
  - unfold JS.padStart.
    destruct (Nat.leb_spec 2 (String.length (pretty n))) as [_|Hlen]; [reflexivity|].
    pose proof (pretty_length_ge_10 n Hge). lia.
Qed.

Lemma uptime_fields (u : Z) :
  0 <= u ->
  u / (1000 * 60 * 60) = u / 1000 / 3600 /\
  Z.rem u (1000 * 60 * 60) / (1000 * 60) = (u / 1000 / 60) mod 60 /\
  Z.rem u (1000 * 60) / 1000 = (u / 1000) mod 60.
Proof.
  intros Hu. rewrite !Z.rem_mod_nonneg by lia.
  repeat split.
  - rewrite Z.div_div by lia. reflexivity.
  - change (1000 * 60 * 60) with (60000 * 60).
    rewrite Z.rem_mul_r by lia.
    change (1000 * 60) with 60000.
    rewrite Z.mul_comm, Z.div_add by lia.
    rewrite (Z.div_small (u mod 60000)) by (apply Z.mod_pos_bound; lia).
    rewrite Z.div_div by lia. reflexivity.
  - change (1000 * 60) with (1000 * 60).
    rewrite Z.rem_mul_r by lia.
    rewrite Z.mul_comm, Z.div_add by lia.
    rewrite (Z.div_small (u mod 1000)) by (apply Z.mod_pos_bound; lia).
    reflexivity.
Qed.

Lemma formatUptime_clockText (u : Z) :
  0 <= u -> formatUptime u = clockText (u / 1000).
Proof.
  intros Hu. unfold formatUptime, clockText.
  destruct (uptime_fields u Hu) as (-> & -> & ->).
  rewrite !padStart_twoDigits; [reflexivity|..].
  - apply Z.mod_pos_bound. lia.
  - apply Z.mod_pos_bound. lia.
  - apply Z.div_pos; [apply Z.div_pos|]; lia.
Qed.

Lemma twoDigits_length (n : Z) :
  0 <= n ->
  (2 <= String.length (twoDigits n))%nat /\
  (n < 100 -> String.length (twoDigits n) = 2%nat).
Proof.
  intros Hn. split.
  - unfold twoDigits. destruct (Z.ltb_spec n 10) as [Hlt|Hge].
    + rewrite <- (Z2Nat.id n) by exact Hn.
      destruct (one_digit (Z.to_nat n)) as [Hlen _]; [lia|].
      change (String.length ("0" +:+ ?s)) with (S (String.length s)).
      rewrite Hlen. lia.
    + apply pretty_length_ge_10. exact Hge.
  - intros Hlt. rewrite <- (Z2Nat.id n) by exact Hn.
    assert (Z.to_nat n < 100)%nat as Hk by lia.
    revert Hk. generalize (Z.to_nat n) as k. intros k Hk.
    do 100 (destruct k as [|k]; [reflexivity|]). lia.
Qed.

(** ** Drawing keeps the page's structure *)

Ltac dom_frame :=
  repeat first
    [ rewrite getElementById_write
    | rewrite querySelector_write
    | reflexivity
    | match goal with
      | |- context [match DOM.getElementById ?d ?i with _ => _ end] =>
          destruct (DOM.getElementById d i)
      | |- context [match DOM.querySelector ?d ?n ?i with _ => _ end] =>
          destruct (DOM.querySelector d n i)
      | |- context [if ?c then _ else _] => destruct c
      end ].

Lemma getElementById_updateBotControls (running : bool) (d : Document) (id : string) :
  DOM.getElementById (updateBotControls running d) id = DOM.getElementById d id.
Proof. unfold updateBotControls. dom_frame. Qed.

Lemma getElementById_updateSignalIndicator (text status : string) (d : Document) (id : string) :
  DOM.getElementById (updateSignalIndicator text status d) id = DOM.getElementById d id.
Proof. unfold updateSignalIndicator. dom_frame. Qed.

Lemma getElementById_updateConnectionStatus (status cls : string) (d : Document) (id : string) :
  DOM.getElementById (updateConnectionStatus status cls d) id = DOM.getElementById d id.
Proof. unfold updateConnectionStatus. dom_frame. Qed.

Lemma getElementById_updateCryptoCard (prefix : string) (data : CardData)
      (d : Document) (id : string) :
  DOM.getElementById (updateCryptoCard prefix data d) id = DOM.getElementById d id.
Proof.
  unfold updateCryptoCard. cbv zeta.
  repeat first
    [ rewrite getElementById_write
    | rewrite querySelector_write
    | reflexivity
    | match goal with
      | |- context [match DOM.getElementById d ?i with _ => _ end] =>
          destruct (DOM.getElementById d i)
      | |- context [match DOM.querySelector d ?n ?i with _ => _ end] =>
          destruct (DOM.querySelector d n i)
      | |- context [if decide (card_price data = ?p) then _ else _] =>
          destruct (decide (card_price data = p))
      end ].
Qed.

Lemma append_nil_r (s : string) : s +:+ "" = s.
Proof. induction s as [|a s IH]; [reflexivity|]. rewrite append_cons, IH. reflexivity. Qed.

Lemma textContent_set_textContent (s : string) (e : Element) :
  DOM.textContent (DOM.set_textContent s e) = s.
Proof.
  unfold DOM.textContent, DOM.set_textContent. simpl.
  destruct s; [reflexivity|]. simpl. apply append_nil_r.
Qed.

(** ** The dashboard state *)

Section DashboardProperties.

Variable Number : Type.
Variable numberTruthy : Number -> bool.
Variable mockBtcPrice : Number -> string.

Ltac fields :=
  cbn [socket isConnected botRunning instruments signalsToday successRate
       startTime document emitted pendingStatus
       set_isConnected set_running set_instruments set_signalsToday
       draw emit set_pendingStatus] in *.

Ltac handlers :=
  unfold handle, onConnect, onDisconnect, onBotStarted, onBotStopped,
         onStatusLoaded, startBot, stopBot, uptimeTick in *.

Ltac unfold_updateDashboard := unfold updateDashboard in *.
Ltac unfold_handle := unfold handle in *.

Local Abbreviation handle := (handle numberTruthy mockBtcPrice).
Local Abbreviation run := (run numberTruthy mockBtcPrice).
Local Abbreviation updateDashboard := (updateDashboard numberTruthy mockBtcPrice).
Local Abbreviation onStatusLoaded := (onStatusLoaded numberTruthy mockBtcPrice).

Lemma countActiveSignals_filter (insts : gmap string (InstrumentState Number)) :
  countActiveSignals insts
  = length (List.filter (@hasSignal Number) (Object_values insts)).
Proof.
  unfold countActiveSignals.
  assert (forall l n,
            fold_left (fun a (inst : InstrumentState Number) =>
                         if hasSignal inst then S a else a) l n
            = (n + length (List.filter (@hasSignal Number) l))%nat) as H.
  { induction l as [|x l IH]; intros n; simpl; [lia|].
    rewrite IH. destruct (hasSignal x); simpl; lia. }
  rewrite H. reflexivity.
Qed.

(** [updateStats] changes the counter and the page, nothing else, and the
    counter becomes the larger of its value and the snapshot's count. *)
Lemma updateStats_fields (data : Snapshot Number) (s : State Number) :
  socket (updateStats data s) = socket s /\
  isConnected (updateStats data s) = isConnected s /\
  botRunning (updateStats data s) = botRunning s /\
  startTime (updateStats data s) = startTime s /\
  emitted (updateStats data s) = emitted s /\
  pendingStatus (updateStats data s) = pendingStatus s /\
  instruments (updateStats data s) = instruments s /\
  signalsToday (updateStats data s)
  = match snap_instruments data with
    | Some insts => Nat.max (signalsToday s) (countActiveSignals insts)
    | None => signalsToday s
    end.
Proof.
  unfold updateStats. destruct (snap_instruments data) as [insts|].
  - fields. destruct (Nat.ltb_spec (signalsToday s) (countActiveSignals insts));
      fields; repeat split; lia.
  - fields. repeat split.
Qed.

Lemma updateDashboard_fields (data : Snapshot Number) (s : State Number) :
  socket (updateDashboard data s) = socket s /\
  isConnected (updateDashboard data s) = isConnected s /\
  botRunning (updateDashboard data s) = botRunning s /\
  startTime (updateDashboard data s) = startTime s /\
  emitted (updateDashboard data s) = emitted s /\
  pendingStatus (updateDashboard data s) = pendingStatus s /\
  signalsToday (updateDashboard data s)
  = match snap_instruments data with
    | Some insts => Nat.max (signalsToday s) (countActiveSignals insts)
    | None => signalsToday s
    end.
Proof.
  unfold_updateDashboard.
  destruct (snap_instruments data) as [insts|] eqn:Hi; [|repeat split].
  match goal with |- context [updateStats data ?t] =>
    pose proof (updateStats_fields data t) as H end.
  rewrite Hi in H. fields.
  destruct H as (-> & -> & -> & -> & -> & -> & _ & ->). repeat split.
Qed.

(** [updateDashboard] never reads [data.bot_running]. *)
Lemma updateDashboard_ignores_bot_running
      (b : option bool) (insts : option (gmap string (InstrumentState Number)))
      (running : option bool) (s : State Number) :
  updateDashboard {| snap_bot_running := b; snap_instruments := insts |} s
  = updateDashboard {| snap_bot_running := running; snap_instruments := insts |} s.
Proof. reflexivity. Qed.

(** What a handler does to [botRunning] and [startTime]. *)
Lemma handle_running (s : State Number) (e : Event Number) :
  (botRunning (handle s e), startTime (handle s e))
  = match e with
    | BotStarted now _ =>
        if socket s then (true, Some now) else (botRunning s, startTime s)
    | BotStopped _ =>
        if socket s then (false, None) else (botRunning s, startTime s)
    | StatusLoaded now data =>
        match pendingStatus s with
        | S _ => if snapshotRunning data then (true, Some now)
                 else (botRunning s, startTime s)
        | O => (botRunning s, startTime s)
        end
    | _ => (botRunning s, startTime s)
    end.
Proof.
  destruct e as [| |data|now ts|ts|now data| |ts|ts|now]; handlers.
  - destruct (socket s); reflexivity.
  - destruct (socket s); reflexivity.
  - destruct (socket s); [|reflexivity].
    destruct (updateDashboard_fields data s) as (_ & _ & -> & -> & _). reflexivity.
  - destruct (socket s); reflexivity.
  - destruct (socket s); reflexivity.
  - destruct (pendingStatus s) as [|n]; [reflexivity|].
    match goal with |- context [updateDashboard data ?t] =>
      destruct (updateDashboard_fields data t) as (_ & _ & -> & -> & _) end.
    destruct (snapshotRunning data); reflexivity.
  - destruct (pendingStatus s); reflexivity.
  - destruct (DOM.getElementById _ _); [|reflexivity].
    destruct (isConnected s && socket s); reflexivity.
  - destruct (DOM.getElementById _ _); [|reflexivity].
    destruct (isConnected s && socket s); reflexivity.
  - destruct (startTimeTruthy _); reflexivity.
Qed.

(** What a handler does to [signalsToday]. *)
Lemma handle_signalsToday (s : State Number) (e : Event Number) :
  signalsToday (handle s e)
  = match e with
    | StatusUpdate data =>
        match socket s, snap_instruments data with
        | true, Some insts => Nat.max (signalsToday s) (countActiveSignals insts)
        | _, _ => signalsToday s
        end
    | StatusLoaded _ data =>
        match pendingStatus s, snap_instruments data with
        | S _, Some insts => Nat.max (signalsToday s) (countActiveSignals insts)
        | _, _ => signalsToday s
        end
    | _ => signalsToday s
    end.
Proof.
  destruct e as [| |data|now ts|ts|now data| |ts|ts|now]; handlers.
  - destruct (socket s); reflexivity.
  - destruct (socket s); reflexivity.
  - destruct (socket s); [|reflexivity].
    destruct (updateDashboard_fields data s) as (_ & _ & _ & _ & _ & _ & ->).
    reflexivity.
  - destruct (socket s); reflexivity.
  - destruct (socket s); reflexivity.
  - destruct (pendingStatus s) as [|n]; [reflexivity|].
    match goal with |- context [updateDashboard data ?t] =>
      destruct (updateDashboard_fields data t) as (_ & _ & _ & _ & _ & _ & ->) end.
    destruct (snapshotRunning data); reflexivity.
  - destruct (pendingStatus s); reflexivity.
  - destruct (DOM.getElementById _ _); [|reflexivity].
    destruct (isConnected s && socket s); reflexivity.
  - destruct (DOM.getElementById _ _); [|reflexivity].
    destruct (isConnected s && socket s); reflexivity.
  - destruct (startTimeTruthy _); reflexivity.
Qed.

(** What a handler does to [socket] and [isConnected]. *)
Lemma handle_connection (s : State Number) (e : Event Number) :
  socket (handle s e) = socket s /\
  isConnected (handle s e)
  = match e with
    | Connect => if socket s then true else isConnected s
    | Disconnect => if socket s then false else isConnected s
    | _ => isConnected s
    end.
Proof.
  destruct e as [| |data|now ts|ts|now data| |ts|ts|now]; handlers.
  - destruct (socket s) eqn:E; split; fields; congruence.
  - destruct (socket s) eqn:E; split; fields; congruence.
  - destruct (socket s) eqn:E; [|split; congruence].
    destruct (updateDashboard_fields data s) as (-> & -> & _). split; congruence.
  - destruct (socket s) eqn:E; split; fields; congruence.
  - destruct (socket s) eqn:E; split; fields; congruence.
  - destruct (pendingStatus s) as [|n]; [split; reflexivity|].
    match goal with |- context [updateDashboard data ?t] =>
      destruct (updateDashboard_fields data t) as (-> & -> & _) end.
    destruct (snapshotRunning data); split; reflexivity.
  - destruct (pendingStatus s); split; reflexivity.
  - destruct (DOM.getElementById _ _); [|split; reflexivity].
    destruct (isConnected s && socket s); split; reflexivity.
  - destruct (DOM.getElementById _ _); [|split; reflexivity].
    destruct (isConnected s && socket s); split; reflexivity.
  - destruct (startTimeTruthy _); split; reflexivity.
Qed.

Lemma run_cons (s : State Number) (e : Event Number) (events : list (Event Number)) :
  run s (e :: events) = run (handle s e) events.
Proof. reflexivity. Qed.

(** A property of the state that every handler keeps holds after any
    sequence of events. *)
Lemma run_invariant (P : State Number -> Prop) :
  (forall s e, P s -> P (handle s e)) ->
  forall events s, P s -> P (run s events).
Proof.
  intros Hstep events. induction events as [|e events IH]; intros s Hs.
  - exact Hs.
  - rewrite run_cons. apply IH, Hstep, Hs.
Qed.

Lemma construct_fields (ioWorks : bool) (page : Document) :
  socket (construct Number ioWorks page) = ioWorks /\
  isConnected (construct Number ioWorks page) = false /\
  botRunning (construct Number ioWorks page) = false /\
  startTime (construct Number ioWorks page) = None /\
  signalsToday (construct Number ioWorks page) = 0%nat /\
  emitted (construct Number ioWorks page) = [].
Proof. unfold construct. destruct ioWorks; repeat split. Qed.

(** In every state the instance reaches, a connected dashboard has a socket. *)
Lemma connected_has_socket (ioWorks : bool) (page : Document)
      (events : list (Event Number)) :
  isConnected (run (construct Number ioWorks page) events) = true ->
  socket (run (construct Number ioWorks page) events) = true.
Proof.
  apply (run_invariant (fun s => isConnected s = true -> socket s = true)).
  - intros s e IH. destruct (handle_connection s e) as [-> ->].
    destruct e; try exact IH; destruct (socket s); auto.
  - destruct (construct_fields ioWorks page) as (_ & -> & _). discriminate.
Qed.

(** In every state the instance reaches, [startTime] is set exactly when
    [botRunning] is true. *)
Lemma running_has_startTime (ioWorks : bool) (page : Document)
      (events : list (Event Number)) :
  is_Some (startTime (run (construct Number ioWorks page) events))
  <-> botRunning (run (construct Number ioWorks page) events) = true.
Proof.
  apply (run_invariant (fun s => is_Some (startTime s) <-> botRunning s = true)).
  - intros s e IH. pose proof (handle_running s e) as H.
    set (s' := handle s e) in *. clearbody s'.
    destruct e;
      repeat match type of H with
             | context [match ?c with _ => _ end] => destruct c
             end;
      injection H as -> ->; try exact IH;
      (split; [intros [? ?]; try discriminate; reflexivity
              | intros ?; try discriminate; eauto]).
  - destruct (construct_fields ioWorks page) as (_ & _ & -> & -> & _).
    split; [intros [? ?]|]; discriminate.
Qed.

(** ** Snapshots *)

(** C3: a snapshot without [instruments] changes nothing: [updateDashboard]
    returns the state it was given, page included, so every price, risk,
    confidence and recommendation on display stays as it was; the same
    holds for the [status_update] handler, and the stored [instruments]
    survive the bootstrap response too. *)
Theorem updateDashboard_without_instruments
        (data : Snapshot Number) (s : State Number) :
  snap_instruments data = None ->
  updateDashboard data s = s /\
  handle s (StatusUpdate data) = s /\
  forall now, instruments (handle s (StatusLoaded now data)) = instruments s.
Proof.
  intros Hnone.
  assert (forall t, updateDashboard data t = t) as Hid.
  { intros t. unfold_updateDashboard. rewrite Hnone. reflexivity. }
  split; [apply Hid|]. split.
  - handlers. rewrite Hid. destruct (socket s); reflexivity.
  - intros now. handlers. destruct (pendingStatus s) as [|n]; [reflexivity|].
    rewrite Hid. destruct (snapshotRunning data); reflexivity.
Qed.

(** ** Commands *)

(** C6: while disconnected, [startBot] emits nothing and adds one log entry
    (the refusal), and [stopBot] does nothing at all; while connected,
    [startBot] emits exactly "start_bot" and [stopBot] exactly "stop_bot". *)
Theorem start_stop_dispatch :
  (forall timestamp (s : State Number),
     isConnected s = false ->
     emitted (startBot timestamp s) = emitted s /\
     document (startBot timestamp s)
     = addLogEntry timestamp "❌ Cannot start bot - No connection to server" (document s) /\
     stopBot timestamp s = s) /\
  (forall timestamp (s : State Number),
     isConnected s = false ->
     is_Some (DOM.getElementById (document s) "activity-log") ->
     logEntries (document (startBot timestamp s))
     = take 20 (logEntry timestamp "❌ Cannot start bot - No connection to server"
                :: logEntries (document s))) /\
  (forall ioWorks page events timestamp,
     let s := run (construct Number ioWorks page) events in
     isConnected s = true ->
     emitted (startBot timestamp s) = emitted s ++ ["start_bot"] /\
     emitted (stopBot timestamp s) = emitted s ++ ["stop_bot"]).
Proof.
  split; [|split].
  - intros ts s Hd. unfold startBot, stopBot. rewrite Hd. repeat split.
  - intros ts s Hd Hlog. unfold startBot. rewrite Hd. fields.
    apply logEntries_addLogEntry, Hlog.
  - intros io page events ts s Hc.
    pose proof (connected_has_socket io page events Hc) as Hs. fold s in Hs.
    unfold startBot, stopBot. rewrite Hc, Hs. split; reflexivity.
Qed.

(** ** The signal counter *)

(** C7: no handler lowers [signalsToday], hence no sequence of events does;
    and a handler raises it only when it is given a snapshot whose number
    of instruments with a recommendation exceeds the counter, which then
    takes that number. *)
Theorem signalsToday_monotonic :
  (forall (s : State Number) e, (signalsToday s <= signalsToday (handle s e))%nat) /\
  (forall (s : State Number) events, (signalsToday s <= signalsToday (run s events))%nat) /\
  (forall (s : State Number) e,
     signalsToday (handle s e) <> signalsToday s ->
     exists data insts,
       (e = StatusUpdate data \/ exists now, e = StatusLoaded now data) /\
       snap_instruments data = Some insts /\
       countActiveSignals insts
       = length (List.filter (@hasSignal Number) (Object_values insts)) /\
       (signalsToday s < countActiveSignals insts)%nat /\
       signalsToday (handle s e) = countActiveSignals insts).
Proof.
  assert (forall (s : State Number) e,
            (signalsToday s <= signalsToday (handle s e))%nat) as Hstep.
  { intros s e. rewrite handle_signalsToday.
    destruct e; try lia;
      repeat match goal with
             | |- context [match ?c with _ => _ end] => destruct c
             end; lia. }
  split; [exact Hstep|]. split.
  - intros s events. revert s.
    induction events as [|e events IH]; intros s; [reflexivity|].
    rewrite run_cons. etrans; [apply Hstep | apply IH].
  - intros s e. rewrite handle_signalsToday.
    destruct e as [| |data|now ts|ts|now data| |ts|ts|now]; try congruence.
    + destruct (socket s); [|congruence].
      destruct (snap_instruments data) as [insts|] eqn:Hi; [|congruence].
      intros Hne. exists data, insts.
      split; [left; reflexivity|]. split; [exact Hi|].
      split; [apply countActiveSignals_filter|]. lia.
    + destruct (pendingStatus s); [congruence|].
      destruct (snap_instruments data) as [insts|] eqn:Hi; [|congruence].
      intros Hne. exists data, insts.
      split; [right; eauto|]. split; [exact Hi|].
      split; [apply countActiveSignals_filter|]. lia.
Qed.

(** ** Run state *)

(** C9: in every state the instance reaches, [startTime] is set exactly
    when [botRunning] is true.  A handler changes [startTime] only together
    with [botRunning]: to the clock reading of the event when the bot is
    reported running, to [null] when it is reported stopped.  Hence the
    timer, which uses [startTime] only when it is truthy, uses it only while
    [botRunning] is true, and leaves a stopped dashboard alone. *)
Theorem startTime_follows_botRunning :
  (forall ioWorks page events,
     let s := run (construct Number ioWorks page) events in
     is_Some (startTime s) <-> botRunning s = true) /\
  (forall (s : State Number) e,
     startTime (handle s e) <> startTime s ->
     (exists now, startTime (handle s e) = Some now /\
                  botRunning (handle s e) = true /\
                  ((exists timestamp, e = BotStarted now timestamp) \/
                   (exists data, e = StatusLoaded now data /\
                                 snapshotRunning data = true))) \/
     (startTime (handle s e) = None /\
      botRunning (handle s e) = false /\
      exists timestamp, e = BotStopped timestamp)) /\
  (forall ioWorks page events now,
     let s := run (construct Number ioWorks page) events in
     (startTimeTruthy (startTime s) = true -> botRunning s = true) /\
     (botRunning s = false -> handle s (Tick now) = s)).
Proof.
  split; [|split].
  - intros io page events s. apply running_has_startTime.
  - intros s e. pose proof (handle_running s e) as H.
    set (s' := handle s e) in *. clearbody s'.
    destruct e as [| |data|now ts|ts|now data| |ts|ts|now];
      try (injection H as -> ->; congruence).
    + destruct (socket s); injection H as Hb Ht; rewrite Hb, Ht; [|congruence].
      intros _. left. exists now. eauto 10.
    + destruct (socket s); injection H as Hb Ht; rewrite Hb, Ht; [|congruence].
      intros _. right. eauto.
    + destruct (pendingStatus s); [injection H as -> ->; congruence|].
      destruct (snapshotRunning data) eqn:Hr;
        injection H as Hb Ht; rewrite Hb, Ht; [|congruence].
      intros _. left. exists now. eauto 10.
  - intros io page events now s.
    pose proof (running_has_startTime io page events) as Hinv. fold s in Hinv.
    split.
    + intros Ht. apply Hinv. destruct (startTime s); [eauto | discriminate].
    + intros Hb. handlers.
      destruct (startTime s) as [t|] eqn:Ht; [|reflexivity].
      assert (botRunning s = true) by (apply Hinv; eauto). congruence.
Qed.

(** C10: the [status_update] handler leaves [botRunning] (and [startTime])
    as they are, whatever [bot_running] the snapshot carries, since
    [updateDashboard] does not look at that property; [botRunning] changes
    only in the handlers of [bot_started] and [bot_stopped] and when the
    bootstrap response arrives. *)
Theorem status_update_keeps_botRunning :
  (forall (s : State Number) data,
     botRunning (handle s (StatusUpdate data)) = botRunning s /\
     startTime (handle s (StatusUpdate data)) = startTime s) /\
  (forall (s : State Number) b b' insts,
     handle s (StatusUpdate {| snap_bot_running := b; snap_instruments := insts |})
     = handle s (StatusUpdate {| snap_bot_running := b'; snap_instruments := insts |})) /\
  (forall (s : State Number) e,
     botRunning (handle s e) <> botRunning s ->
     (exists now timestamp, e = BotStarted now timestamp) \/
     (exists timestamp, e = BotStopped timestamp) \/
     (exists now data, e = StatusLoaded now data)).
Proof.
  split; [|split].
  - intros s data. pose proof (handle_running s (StatusUpdate data)) as H.
    set (s' := handle s (StatusUpdate data)) in *. clearbody s'.
    injection H as -> ->. split; reflexivity.
  - intros s b b' insts. reflexivity.
  - intros s e. pose proof (handle_running s e) as H.
    set (s' := handle s e) in *. clearbody s'.
    destruct e; try (injection H as -> _; congruence); eauto 6.
Qed.

(** ** The uptime clock *)

Lemma getElementById_updateStats (data : Snapshot Number) (s : State Number) (id : string) :
  DOM.getElementById (document (updateStats data s)) id
  = DOM.getElementById (document s) id.
Proof.
  unfold updateStats.
  destruct (snap_instruments data) as [insts|];
    [destruct (signalsToday _ <? countActiveSignals insts)%nat|];
    fields; dom_frame.
Qed.

Lemma getElementById_updateDashboard (data : Snapshot Number) (s : State Number)
      (id : string) :
  DOM.getElementById (document (updateDashboard data s)) id
  = DOM.getElementById (document s) id.
Proof.
  unfold_updateDashboard. destruct (snap_instruments data) as [insts|]; [|reflexivity].
  rewrite getElementById_updateStats. fields. unfold updateCryptoCards.
  rewrite !getElementById_updateCryptoCard. reflexivity.
Qed.

(** No handler adds or removes an element the script looks up by id. *)
Lemma getElementById_handle (s : State Number) (e : Event Number) (id : string) :
  DOM.getElementById (document (handle s e)) id = DOM.getElementById (document s) id.
Proof.
  destruct e as [| |data|now ts|ts|now data| |ts|ts|now]; handlers.
  - destruct (socket s); [|reflexivity]. fields.
    apply getElementById_updateConnectionStatus.
  - destruct (socket s); [|reflexivity]. fields.
    apply getElementById_updateConnectionStatus.
  - destruct (socket s); [|reflexivity]. apply getElementById_updateDashboard.
  - destruct (socket s); [|reflexivity]. fields.
    rewrite getElementById_addLogEntry, getElementById_updateSignalIndicator,
      getElementById_updateBotControls. reflexivity.
  - destruct (socket s); [|reflexivity]. fields.
    rewrite getElementById_addLogEntry, getElementById_updateSignalIndicator,
      getElementById_updateBotControls. reflexivity.
  - destruct (pendingStatus s) as [|n]; [reflexivity|].
    rewrite getElementById_updateDashboard.
    destruct (snapshotRunning data); fields;
      rewrite getElementById_updateBotControls,
        ?getElementById_updateSignalIndicator; reflexivity.
  - destruct (pendingStatus s); reflexivity.
  - destruct (DOM.getElementById (document s) "start-bot"); [|reflexivity].
    destruct (isConnected s && socket s); fields;
      apply getElementById_addLogEntry.
  - destruct (DOM.getElementById (document s) "stop-bot"); [|reflexivity].
    destruct (isConnected s && socket s); fields;
      [apply getElementById_addLogEntry | reflexivity].
  - destruct (startTimeTruthy (startTime s)); [|reflexivity]. fields. dom_frame.
Qed.

Lemma uptimeTick_text (s : State Number) (T now : Z) :
  startTime s = Some T -> T <> 0 ->
  is_Some (DOM.getElementById (document s) "uptime") ->
  DOM.textContent <$> DOM.element (document (handle s (Tick now))) "uptime"
  = Some (formatUptime (now - T)).
Proof.
  intros Ht Hnz [n Hn]. handlers. rewrite Ht. simpl startTimeTruthy.
  destruct (Z.eqb_spec T 0) as [|_]; [contradiction|].
  cbn [negb default]. fields.
  rewrite Hn, element_write_same by exact Hn.
  destruct (getElementById_node _ _ _ Hn) as [e He].
  unfold DOM.element. rewrite Hn. simpl. rewrite He. simpl.
  rewrite textContent_set_textContent. reflexivity.
Qed.

(** C8: when the bot is reported running at a time [T] (after the epoch),
    by [bot_started] or by the bootstrap response, and the timer fires 3661
    seconds later, the uptime slot reads "01:01:01".  In general the timer
    writes the elapsed time as hours, minutes and seconds separated by
    colons, each with at least two digits (minutes and seconds exactly
    two), the hours growing without bound. *)
Theorem uptime_after_start :
  (forall (s : State Number) T timestamp,
     socket s = true -> 0 < T ->
     is_Some (DOM.getElementById (document s) "uptime") ->
     DOM.textContent <$>
       DOM.element
         (document (run s [BotStarted T timestamp; Tick (T + 3661 * 1000)])) "uptime"
     = Some "01:01:01") /\
  (forall (s : State Number) T data,
     pendingStatus s <> 0%nat -> snapshotRunning data = true -> 0 < T ->
     is_Some (DOM.getElementById (document s) "uptime") ->
     DOM.textContent <$>
       DOM.element
         (document (run s [StatusLoaded T data; Tick (T + 3661 * 1000)])) "uptime"
     = Some "01:01:01") /\
  (forall (s : State Number) T now,
     startTime s = Some T -> 0 < T -> T <= now ->
     is_Some (DOM.getElementById (document s) "uptime") ->
     DOM.textContent <$> DOM.element (document (handle s (Tick now))) "uptime"
     = Some (clockText ((now - T) / 1000))) /\
  (forall n, 0 <= n ->
     (2 <= String.length (twoDigits n))%nat /\
     (n < 100 -> String.length (twoDigits n) = 2%nat)) /\
  formatUptime (100 * 3600 * 1000) = "100:00:00".
Proof.
  assert (forall (s : State Number) e T,
            startTime (handle s e) = Some T -> 0 < T ->
            is_Some (DOM.getElementById (document s) "uptime") ->
            DOM.textContent <$>
              DOM.element
                (document (run s [e; Tick (T + 3661 * 1000)])) "uptime"
            = Some "01:01:01") as Hgen.
  { intros s e T Hstart HT Hup.
    change (run s [e; Tick (T + 3661 * 1000)])
      with (handle (handle s e) (Tick (T + 3661 * 1000))).
    rewrite (uptimeTick_text _ T).
    - replace (T + 3661 * 1000 - T) with 3661000 by lia. reflexivity.
    - exact Hstart.
    - lia.
    - rewrite getElementById_handle. exact Hup. }
  split; [|split; [|split; [|split]]].
  - intros s T ts Hsock HT Hup. apply Hgen; [|exact HT|exact Hup].
    pose proof (f_equal snd (handle_running s (BotStarted T ts))) as H.
    rewrite Hsock in H. exact H.
  - intros s T data Hpending Hrun HT Hup. apply Hgen; [|exact HT|exact Hup].
    pose proof (f_equal snd (handle_running s (StatusLoaded T data))) as H.
    destruct (pendingStatus s); [contradiction|].
    rewrite Hrun in H. exact H.
  - intros s T now Ht HT Hle Hup.
    rewrite (uptimeTick_text _ T) by (auto; lia).
    rewrite formatUptime_clockText by lia. reflexivity.
  - apply twoDigits_length.
  - reflexivity.
Qed.

End DashboardProperties.

(** ** The properties on the example page *)

Lemma confidence_parsing_witness :
  width <$> nodes (updateCryptoCard "btc" demoCard demoPage) !! 7%nat = Some "82%".
Proof.
  destruct confidence_parsing as (_ & _ & _ & _ & _ & _ & _ & H).
  refine (H "btc" demoCard demoPage 7%nat _). vm_compute. reflexivity.
Defined.

Lemma updateDashboard_without_instruments_witness :
  updateDashboard demoTruthy demoPrice demoStatusOnly demoState = demoState /\
  handle demoTruthy demoPrice demoState (StatusUpdate demoStatusOnly) = demoState /\
  forall now,
    instruments (handle demoTruthy demoPrice demoState (StatusLoaded now demoStatusOnly))
    = instruments demoState.
Proof.
  apply (updateDashboard_without_instruments Z demoTruthy demoPrice demoStatusOnly demoState).
  reflexivity.
Defined.

Lemma start_stop_dispatch_witness :
  (emitted (startBot "10:00:00" demoState) = [] /\
   logEntries (document (startBot "10:00:00" demoState))
   = [logEntry "10:00:00" "❌ Cannot start bot - No connection to server"] /\
   stopBot "10:00:00" demoState = demoState) /\
  emitted (startBot "10:00:01" (run demoTruthy demoPrice demoState [Connect]))
  = ["start_bot"] /\
  emitted (stopBot "10:00:01" (run demoTruthy demoPrice demoState [Connect]))
  = ["stop_bot"].
Proof.
  destruct (start_stop_dispatch Z demoTruthy demoPrice) as (H1 & H2 & H3).
  split; [split; [|split]|].
  - apply (H1 "10:00:00" demoState). reflexivity.
  - apply (H2 "10:00:00" demoState); [reflexivity|].
    exists 16%nat. vm_compute. reflexivity.
  - apply (H1 "10:00:00" demoState). reflexivity.
  - apply (H3 true demoPage [Connect] "10:00:01"). reflexivity.
Defined.

Lemma signalsToday_monotonic_witness :
  exists data insts,
    (StatusUpdate demoSnapshot = StatusUpdate data \/
     exists now, StatusUpdate demoSnapshot = StatusLoaded now data) /\
    snap_instruments data = Some insts /\
    countActiveSignals insts
    = length (List.filter (@hasSignal Z) (Object_values insts)) /\
    (signalsToday demoState < countActiveSignals insts)%nat /\
    signalsToday (handle demoTruthy demoPrice demoState (StatusUpdate demoSnapshot))
    = countActiveSignals insts.
Proof.
  destruct (signalsToday_monotonic Z demoTruthy demoPrice) as (_ & _ & H).
  apply (H demoState (StatusUpdate demoSnapshot)).
  vm_compute. discriminate.
Defined.

Lemma startTime_follows_botRunning_witness :
  (exists now,
     startTime (handle demoTruthy demoPrice demoState (BotStarted 1000 "10:00:00"))
     = Some now /\
     botRunning (handle demoTruthy demoPrice demoState (BotStarted 1000 "10:00:00"))
     = true /\
     ((exists timestamp, BotStarted 1000 "10:00:00" = BotStarted (Number := Z) now timestamp) \/
      (exists data, BotStarted 1000 "10:00:00" = StatusLoaded (Number := Z) now data /\
                    snapshotRunning data = true))) \/
  (startTime (handle demoTruthy demoPrice demoState (BotStarted 1000 "10:00:00")) = None /\
   botRunning (handle demoTruthy demoPrice demoState (BotStarted 1000 "10:00:00")) = false /\
   exists timestamp, BotStarted 1000 "10:00:00" = BotStopped (Number := Z) timestamp).
Proof.
  destruct (startTime_follows_botRunning Z demoTruthy demoPrice) as (_ & H & _).
  apply (H demoState (BotStarted 1000 "10:00:00")).
  vm_compute. discriminate.
Defined.

Lemma status_update_keeps_botRunning_witness :
  (exists now timestamp,
     BotStarted 1000 "10:00:00" = BotStarted (Number := Z) now timestamp) \/
  (exists timestamp, BotStarted 1000 "10:00:00" = BotStopped (Number := Z) timestamp) \/
  (exists now data, BotStarted 1000 "10:00:00" = StatusLoaded (Number := Z) now data).
Proof.
  destruct (status_update_keeps_botRunning Z demoTruthy demoPrice) as (_ & _ & H).
  apply (H demoState (BotStarted 1000 "10:00:00")).
  vm_compute. discriminate.
Defined.

Lemma uptime_after_start_witness :
  DOM.textContent <$>
    DOM.element
      (document (run demoTruthy demoPrice demoState
                   [BotStarted 1000 "10:00:00"; Tick (1000 + 3661 * 1000)])) "uptime"
  = Some "01:01:01".
Proof.
  destruct (uptime_after_start Z demoTruthy demoPrice) as (H & _).
  apply (H demoState 1000 "10:00:00").
  - reflexivity.
  - lia.
  - exists 17%nat. vm_compute. reflexivity.
Defined.

(** The snapshot of one instrument at HIGH risk, 60% confidence and a
    STRONG SELL recommendation, drawn on the example page. *)
Example status_update_scenario :
  let d := document (handle demoTruthy demoPrice demoState (StatusUpdate demoSnapshot)) in
  DOM.textContent <$> DOM.element d "btc-price" = Some "$50000" /\
  DOM.textContent <$> DOM.element d "btc-risk" = Some "HIGH RISK" /\
  className <$> DOM.element d "btc-risk" = Some "risk-value high" /\
  DOM.textContent <$> DOM.element d "btc-confidence" = Some "60%" /\
  width <$> DOM.element d "btc-confidence-bar" = Some "60%" /\
  DOM.textContent <$> nodes d !! 20%nat = Some "AI recommends:" /\
  DOM.textContent <$> nodes d !! 21%nat = Some "STRONG SELL 📉" /\
  className <$> nodes d !! 21%nat = Some "recommendation-action sell" /\
  DOM.textContent <$> DOM.element d "alt-risk" = Some "ANALYZING" /\
  DOM.textContent <$> DOM.element d "market-status" = Some "🔴 INACTIVE" /\
  DOM.textContent <$> DOM.element d "signals-today" = Some "1" /\
  DOM.textContent <$> DOM.element d "success-rate" = Some "80%".
Proof. vm_compute. repeat split. Qed.

(** * Further properties *)

(** ** The mock success rate *)

(** X1: the success rate shown by [updateStats] is 0 while no signal has
    been seen, and otherwise lies between 80 and 95: it starts at 80, gains
    5 with every further signal and stays at 95 from the fourth on; it never
    goes down when the counter goes up. *)
Theorem rateOf_bounds (n m : nat) :
  (n <= m)%nat ->
  (rateOf n <= rateOf m)%nat /\
  (rateOf m <= 95)%nat /\
  (rateOf m = 0%nat <-> m = 0%nat) /\
  (0 < m < 4 -> rateOf m = 75 + 5 * m)%nat /\
  (4 <= m -> rateOf m = 95)%nat.
Proof.
  intros Hle. unfold rateOf.
  destruct (Nat.ltb_spec 0 n), (Nat.ltb_spec 0 m); repeat split; lia.
Qed.

Lemma rateOf_bounds_witness :
  (rateOf 2 <= rateOf 7)%nat /\
  (rateOf 7 <= 95)%nat /\
  (rateOf 7 = 0%nat <-> 7%nat = 0%nat) /\
  (0 < 7 < 4 -> rateOf 7 = 75 + 5 * 7)%nat /\
  (4 <= 7 -> rateOf 7 = 95)%nat.
Proof. apply (rateOf_bounds 2 7). lia. Defined.

(** ** The loop of the activity log *)

(** X2: the loop of [addLogEntry] leaves a panel of at most twenty entries
    exactly as it is; on a larger panel it removes the twenty-first entry
    and every child node after it, text nodes included, and nothing before
    it. *)
Theorem trimLog_cut (cs : list ChildNode) :
  ((length (DOM.children cs) <= 20)%nat -> trimLog cs = cs) /\
  ((20 < length (DOM.children cs))%nat ->
   length (DOM.children (trimLog cs)) = 20%nat /\
   exists class text rest, cs = trimLog cs ++ ElementNode class text :: rest).
Proof.
  funelim (trimLog cs).
  - split; [lia|]. intros _.
    match goal with IH : _ /\ _ |- _ => destruct IH as [IHsmall IHlarge] end.
    assert (cs <> []) as Hne by (intros ->; simpl in *; lia).
    destruct (exists_last Hne) as (init & x & ->).
    clear Heq Heqcall Hne.
    rewrite removelast_last in *.
    rewrite children_app, length_app in l.
    destruct (decide (20 < length (DOM.children init))%nat) as [Hbig|Hsmall].
    + destruct (IHlarge Hbig) as (Hlen & c & t & rest & Hcut).
      split; [exact Hlen|]. exists c, t, (rest ++ [x]).
      rewrite Hcut at 1. rewrite <- app_assoc. reflexivity.
    + rewrite IHsmall by lia.
      destruct x as [data|c t]; simpl in *; [lia|].
      split; [lia|]. exists c, t, []. reflexivity.
  - split; [reflexivity|lia].
Qed.

Lemma trimLog_cut_witness :
  let cs := replicate 21 (ElementNode "log-entry" "x") ++ [TextNode " "] in
  length (DOM.children (trimLog cs)) = 20%nat /\
  exists class text rest, cs = trimLog cs ++ ElementNode class text :: rest.
Proof.
  intros cs. apply (trimLog_cut cs). vm_compute. lia.
Defined.

(** ** Reading back a percentage *)











(** ** The recommendation displays *)

(** X4: [mapRecommendation] returns one of five fixed displays; the
    "Collecting market data..." placeholder stands for an absent or empty
    recommendation and for nothing else. *)
Theorem mapRecommendation_range (r : option string) :
  (mapRecommendation r = placeholderDisplay <-> JS.truthy r = false) /\
  (JS.truthy r = true ->
   mapRecommendation r = buyDisplay \/ mapRecommendation r = sellDisplay \/
   mapRecommendation r = avoidDisplay \/ mapRecommendation r = waitDisplay).
Proof.
  unfold mapRecommendation, JS.truthy.
  destruct r as [r|]; [|split; [split; reflexivity | discriminate]].
  destruct (JS.truthy_string r); cbn [negb];
    [|split; [split; reflexivity | discriminate]].
  destruct (JS.includes r "STRONG BUY"); [|destruct (JS.includes r "STRONG SELL");
    [|destruct (JS.includes r "DO NOT TRADE" || JS.includes r "AVOID")]];
    (split; [split; discriminate | intros _; auto]).
Qed.

Lemma mapRecommendation_range_witness :
  mapRecommendation (Some "hold") = buyDisplay \/
  mapRecommendation (Some "hold") = sellDisplay \/
  mapRecommendation (Some "hold") = avoidDisplay \/
  mapRecommendation (Some "hold") = waitDisplay.
Proof. apply (mapRecommendation_range (Some "hold")). reflexivity. Defined.

(** ** The start and stop buttons *)

(** X5: [updateBotControls] does nothing unless both buttons are on the
    page; when they are, it disables exactly one of them, the start button
    while the bot runs and the stop button while it does not, dims the
    disabled one, and touches no other element. *)
Theorem updateBotControls_complementary (running : bool) (d : Document) :
  (DOM.getElementById d "start-bot" = None \/ DOM.getElementById d "stop-bot" = None ->
   updateBotControls running d = d) /\
  (forall startBtn stopBtn,
     DOM.getElementById d "start-bot" = Some startBtn ->
     DOM.getElementById d "stop-bot" = Some stopBtn ->
     startBtn <> stopBtn ->
     let d' := updateBotControls running d in
     disabled <$> nodes d' !! startBtn = Some running /\
     disabled <$> nodes d' !! stopBtn = Some (negb running) /\
     opacity <$> nodes d' !! startBtn = Some (if running then "0.5" else "1") /\
     opacity <$> nodes d' !! stopBtn = Some (if running then "1" else "0.5") /\
     forall k, k <> startBtn -> k <> stopBtn -> nodes d' !! k = nodes d !! k).
Proof.
  split.
  - intros [H|H]; unfold updateBotControls; rewrite H;
      [|destruct (DOM.getElementById d "start-bot")]; reflexivity.
  - intros a b Ha Hb Hne d'. subst d'. unfold updateBotControls. rewrite Ha, Hb.
    destruct (getElementById_node _ _ _ Ha) as [ea Hea].
    destruct (getElementById_node _ _ _ Hb) as [eb Heb].
    destruct running; cbv zeta;
      (repeat split; [..|intros k Hka Hkb]);
      rewrite !nodes_write; repeat case_decide; try congruence;
      rewrite ?Hea, ?Heb; reflexivity.
Qed.

Lemma updateBotControls_complementary_witness :
  let d' := updateBotControls true demoPage in
  disabled <$> nodes d' !! 0%nat = Some true /\
  disabled <$> nodes d' !! 1%nat = Some (negb true) /\
  opacity <$> nodes d' !! 0%nat = Some "0.5" /\
  opacity <$> nodes d' !! 1%nat = Some "1" /\
  forall k, k <> 0%nat -> k <> 1%nat -> nodes d' !! k = nodes demoPage !! k.
Proof.
  destruct (updateBotControls_complementary true demoPage) as [_ H].
  apply (H 0%nat 1%nat).
  - vm_compute. reflexivity.
  - vm_compute. reflexivity.
  - lia.
Defined.

(** ** Instruments counted and instruments drawn *)

Lemma filter_length_Permutation {A} (f : A -> bool) (l k : list A) :
  l ≡ₚ k -> length (List.filter f l) = length (List.filter f k).
Proof.
  induction 1 as [|x l k _ IH|x y l|l k m _ IH1 _ IH2]; simpl.
  - reflexivity.
  - destruct (f x); simpl; rewrite IH; reflexivity.
  - destruct (f x), (f y); reflexivity.
  - rewrite IH1. exact IH2.
Qed.

(** X6: the two cards read the entries "EUR_USD" and "USD_JPY" only, so any
    other instrument of a snapshot leaves them as they are; the signal
    count, however, takes every instrument: a further instrument with a
    recommendation raises it by one.  The count never exceeds the number of
    instruments. *)
Theorem other_instruments_counted_not_drawn
        (Number : Type) (numberTruthy : Number -> bool) (mockBtcPrice : Number -> string)
        (insts : gmap string (InstrumentState Number))
        (key : string) (inst : InstrumentState Number) (d : Document) :
  key <> "EUR_USD" -> key <> "USD_JPY" -> insts !! key = None ->
  updateCryptoCards numberTruthy mockBtcPrice (<[key:=inst]> insts) d
  = updateCryptoCards numberTruthy mockBtcPrice insts d /\
  countActiveSignals (<[key:=inst]> insts)
  = (countActiveSignals insts + if hasSignal inst then 1 else 0)%nat /\
  (countActiveSignals insts <= size insts)%nat.
Proof.
  intros Hbtc Halt Hfresh. split; [|split].
  - unfold updateCryptoCards, instrumentOrEmpty.
    rewrite !lookup_insert_ne by assumption. reflexivity.
  - rewrite !countActiveSignals_filter. unfold Object_values.
    rewrite (filter_length_Permutation _ _ (snd <$> ((key, inst) :: map_to_list insts))).
    + change (snd <$> ((key, inst) :: map_to_list insts))
        with (inst :: (snd <$> map_to_list insts)).
      cbn [List.filter]. destruct (hasSignal inst); cbn [length]; lia.
    + apply fmap_Permutation, map_to_list_insert, Hfresh.
  - rewrite countActiveSignals_filter. unfold Object_values.
    etrans; [apply List.filter_length_le|].
    rewrite length_fmap, length_map_to_list. reflexivity.
Qed.

Lemma other_instruments_counted_not_drawn_witness :
  let inst := {| price := Some 150;
                 active_trade :=
                   Some {| risk_level := Some "LOW"; confidence := Some "70%";
                           recommendation := Some "STRONG BUY" |} |} in
  let insts := default ∅ (snap_instruments demoSnapshot) in
  updateCryptoCards demoTruthy demoPrice (<["GBP_USD":=inst]> insts) demoPage
  = updateCryptoCards demoTruthy demoPrice insts demoPage /\
  countActiveSignals (<["GBP_USD":=inst]> insts)
  = (countActiveSignals insts + if hasSignal inst then 1 else 0)%nat /\
  (countActiveSignals insts <= size insts)%nat.
Proof.
  intros inst insts.
  apply (other_instruments_counted_not_drawn Z demoTruthy demoPrice insts "GBP_USD" inst).
  - discriminate.
  - discriminate.
  - vm_compute. reflexivity.
Defined.

(** ** Drawing as patches *)

Lemma applyPatch_noPatch (e : Element) : applyPatch noPatch e = e.
Proof. destruct e. reflexivity. Qed.

Lemma applyPatch_overPatch (new old : Patch) (e : Element) :
  applyPatch (overPatch new old) e = applyPatch new (applyPatch old e).
Proof.
  destruct new as [[?|] [?|] [?|] [?|] [?|] [?|]]; reflexivity.
Qed.

Lemma overPatch_idemp (p : Patch) : overPatch p p = p.
Proof.
  destruct p as [[?|] [?|] [?|] [?|] [?|] [?|]]; reflexivity.
Qed.

Lemma nodes_patched (P : nat -> Patch) (d : Document) (k : nat) :
  nodes (patched P d) !! k = applyPatch (P k) <$> nodes d !! k.
Proof.
  unfold patched. cbn [nodes]. rewrite map_lookup_imap.
  destruct (nodes d !! k); reflexivity.
Qed.

Lemma document_eq (d d' : Document) :
  byId d = byId d' -> bySelector d = bySelector d' ->
  (forall k, nodes d !! k = nodes d' !! k) -> d = d'.
Proof.
  destruct d, d'. simpl. intros -> -> H. f_equal. apply map_eq, H.
Qed.

Lemma patched_patched (P2 P1 : nat -> Patch) (d : Document) :
  patched P2 (patched P1 d) = patched (fun k => overPatch (P2 k) (P1 k)) d.
Proof.
  apply document_eq; try reflexivity. intros k.
  rewrite !nodes_patched. destruct (nodes d !! k) as [e|]; [|reflexivity].
  simpl. rewrite applyPatch_overPatch. reflexivity.
Qed.

Lemma sameStructure_refl (d : Document) : sameStructure d d.
Proof. repeat split; auto. Qed.

Lemma sameStructure_sym (d d' : Document) : sameStructure d d' -> sameStructure d' d.
Proof. intros (H1 & H2 & H3). repeat split; auto; apply H3. Qed.

Lemma sameStructure_trans (d1 d2 d3 : Document) :
  sameStructure d1 d2 -> sameStructure d2 d3 -> sameStructure d1 d3.
Proof.
  intros (H1 & H2 & H3) (K1 & K2 & K3).
  split; [congruence|]. split; [congruence|].
  intros k. rewrite H3. apply K3.
Qed.

Lemma sameStructure_patched (P : nat -> Patch) (d : Document) :
  sameStructure (patched P d) d.
Proof.
  split; [reflexivity|]. split; [reflexivity|].
  intros k. rewrite nodes_patched. apply fmap_is_Some.
Qed.

Lemma getElementById_sameStructure (d d' : Document) (id : string) :
  sameStructure d d' -> DOM.getElementById d id = DOM.getElementById d' id.
Proof.
  intros (H1 & _ & H3). unfold DOM.getElementById. rewrite H1.
  destruct (byId d' !! id) as [n|]; [|reflexivity].
  specialize (H3 n).
  destruct (nodes d !! n), (nodes d' !! n); try reflexivity.
  - destruct H3 as [H3 _]. destruct H3 as [? ?]; [eauto|discriminate].
  - destruct H3 as [_ H3]. destruct H3 as [? ?]; [eauto|discriminate].
Qed.

Lemma querySelector_sameStructure (d d' : Document) (n : nat) (selector : string) :
  sameStructure d d' -> DOM.querySelector d n selector = DOM.querySelector d' n selector.
Proof.
  intros (_ & H2 & H3). unfold DOM.querySelector. rewrite H2.
  destruct (bySelector d' !! (n, selector)) as [m|]; [|reflexivity].
  specialize (H3 m).
  destruct (nodes d !! m), (nodes d' !! m); try reflexivity.
  - destruct H3 as [H3 _]. destruct H3 as [? ?]; [eauto|discriminate].
  - destruct H3 as [_ H3]. destruct H3 as [? ?]; [eauto|discriminate].
Qed.

Section Patches.

Variable Q : Patch -> Prop.
Hypothesis Q_noPatch : Q noPatch.
Hypothesis Q_overPatch : forall new old, Q new -> Q old -> Q (overPatch new old).

Lemma patching_skip : Patching Q (fun d => d).
Proof.
  intros d. exists (fun _ => noPatch). split; [auto|].
  intros d' _. apply document_eq; try reflexivity. intros k.
  rewrite nodes_patched. destruct (nodes d' !! k); [|reflexivity].
  simpl. rewrite applyPatch_noPatch. reflexivity.
Qed.

Lemma patching_write (n : nat) (f : Element -> Element) (p : Patch) :
  Q p -> (forall e, f e = applyPatch p e) -> Patching Q (DOM.write n f).
Proof.
  intros Hp Hf d. exists (fun k => if decide (k = n) then p else noPatch).
  split; [intros k; case_decide; auto|].
  intros d' _. apply document_eq; try reflexivity. intros k.
  rewrite nodes_write, nodes_patched.
  destruct (nodes d' !! k) as [e|]; repeat case_decide; try congruence;
    try reflexivity; simpl.
  - rewrite Hf. reflexivity.
  - rewrite applyPatch_noPatch. reflexivity.
Qed.

Lemma patching_compose (g2 g1 : Document -> Document) :
  Patching Q g1 -> Patching Q g2 -> Patching Q (g2 ∘ g1).
Proof.
  intros H1 H2 d.
  destruct (H1 d) as (P1 & HQ1 & HP1).
  destruct (H2 (g1 d)) as (P2 & HQ2 & HP2).
  exists (fun k => overPatch (P2 k) (P1 k)). split; [auto|].
  intros d' Hd'. unfold compose.
  rewrite (HP1 d' Hd'), <- patched_patched. apply HP2.
  rewrite (HP1 d (sameStructure_refl d)).
  eapply sameStructure_trans; [apply sameStructure_patched|].
  eapply sameStructure_trans; [exact Hd'|].
  apply sameStructure_sym, sameStructure_patched.
Qed.

Lemma patching_onId (id : string) (k : nat -> Document -> Document) :
  (forall n, Patching Q (k n)) -> Patching Q (onId id k).
Proof.
  intros Hk d. unfold onId.
  destruct (DOM.getElementById d id) as [n|] eqn:Hn.
  - destruct (Hk n d) as (P & HQ & HP). exists P. split; [exact HQ|].
    intros d' Hd'. rewrite (getElementById_sameStructure d' d) by exact Hd'.
    rewrite Hn. apply HP, Hd'.
  - destruct (patching_skip d) as (P & HQ & HP). exists P. split; [exact HQ|].
    intros d' Hd'. rewrite (getElementById_sameStructure d' d) by exact Hd'.
    rewrite Hn. apply HP, Hd'.
Qed.

Lemma patching_onSelector (n : nat) (selector : string)
      (k : nat -> Document -> Document) :
  (forall m, Patching Q (k m)) -> Patching Q (onSelector n selector k).
Proof.
  intros Hk d. unfold onSelector.
  destruct (DOM.querySelector d n selector) as [m|] eqn:Hm.
  - destruct (Hk m d) as (P & HQ & HP). exists P. split; [exact HQ|].
    intros d' Hd'. rewrite (querySelector_sameStructure d' d) by exact Hd'.
    rewrite Hm. apply HP, Hd'.
  - destruct (patching_skip d) as (P & HQ & HP). exists P. split; [exact HQ|].
    intros d' Hd'. rewrite (querySelector_sameStructure d' d) by exact Hd'.
    rewrite Hm. apply HP, Hd'.
Qed.

Lemma patching_withId (id : string) (F : option nat -> Document -> Document) :
  (forall o, Patching Q (F o)) -> Patching Q (withId id F).
Proof.
  intros HF d. unfold withId.
  destruct (HF (DOM.getElementById d id) d) as (P & HQ & HP).
  exists P. split; [exact HQ|].
  intros d' Hd'. rewrite (getElementById_sameStructure d' d) by exact Hd'.
  apply HP, Hd'.
Qed.

Lemma patching_withSelector (n : nat) (selector : string)
      (F : option nat -> Document -> Document) :
  (forall o, Patching Q (F o)) -> Patching Q (withSelector n selector F).
Proof.
  intros HF d. unfold withSelector.
  destruct (HF (DOM.querySelector d n selector) d) as (P & HQ & HP).
  exists P. split; [exact HQ|].
  intros d' Hd'. rewrite (querySelector_sameStructure d' d) by exact Hd'.
  apply HP, Hd'.
Qed.

Lemma patching_maybeWrite (o : option nat) (f : Element -> Element) :
  (forall n, Patching Q (DOM.write n f)) -> Patching Q (maybeWrite o f).
Proof. intros Hf. destruct o; [apply Hf | apply patching_skip]. Qed.

Lemma patching_maybeWrite2 (o : option nat) (f g : Element -> Element) :
  (forall n, Patching Q (DOM.write n f)) -> (forall n, Patching Q (DOM.write n g)) ->
  Patching Q (maybeWrite2 o f g).
Proof.
  intros Hf Hg. destruct o as [n|]; [|apply patching_skip].
  apply (patching_compose (DOM.write n g) (DOM.write n f)); auto.
Qed.

End Patches.

Lemma patching_ext (Q : Patch -> Prop) (g g' : Document -> Document) :
  (forall d, g' d = g d) -> Patching Q g -> Patching Q g'.
Proof.
  intros Heq Hg d. destruct (Hg d) as (P & HQ & HP).
  exists P. split; [exact HQ|]. intros d' Hd'. rewrite Heq. apply HP, Hd'.
Qed.

Lemma patching_weaken (Q Q' : Patch -> Prop) (g : Document -> Document) :
  (forall p, Q p -> Q' p) -> Patching Q g -> Patching Q' g.
Proof.
  intros HQQ Hg d. destruct (Hg d) as (P & HQ & HP).
  exists P. split; [auto|exact HP].
Qed.

(** Drawing twice is drawing once. *)
Lemma patching_idempotent (Q : Patch -> Prop) (g : Document -> Document) (d : Document) :
  Patching Q g -> g (g d) = g d.
Proof.
  intros Hg. destruct (Hg d) as (P & _ & HP).
  rewrite (HP d (sameStructure_refl d)).
  rewrite (HP (patched P d) (sameStructure_patched P d)), patched_patched.
  apply document_eq; try reflexivity. intros k.
  rewrite !nodes_patched, overPatch_idemp. reflexivity.
Qed.

Lemma patching_idempotent_compose (Q : Patch -> Prop)
      (g2 g1 : Document -> Document) (d : Document) :
  Patching Q (g2 ∘ g1) -> g2 (g1 (g2 (g1 d))) = g2 (g1 d).
Proof. intros Hg. exact (patching_idempotent Q (g2 ∘ g1) d Hg). Qed.

(** What drawing by patches does to one node. *)
Lemma patching_node (Q : Patch -> Prop) (g : Document -> Document) (d : Document) (k : nat) :
  Patching Q g ->
  exists p, Q p /\ nodes (g d) !! k = applyPatch p <$> nodes d !! k.
Proof.
  intros Hg. destruct (Hg d) as (P & HQ & HP).
  exists (P k). split; [apply HQ|].
  rewrite (HP d (sameStructure_refl d)). apply nodes_patched.
Qed.

Lemma patching_getElementById (Q : Patch -> Prop) (g : Document -> Document)
      (d : Document) (id : string) :
  Patching Q g -> DOM.getElementById (g d) id = DOM.getElementById d id.
Proof.
  intros Hg. destruct (Hg d) as (P & _ & HP).
  rewrite (HP d (sameStructure_refl d)).
  apply getElementById_sameStructure, sameStructure_patched.
Qed.

Lemma Benign_noPatch : Benign noPatch.
Proof. exact I. Qed.

Lemma Benign_overPatch (new old : Patch) : Benign new -> Benign old -> Benign (overPatch new old).
Proof.
  unfold Benign. destruct new as [? [?|] ? ? ? ?]; simpl; auto.
Qed.

Lemma Quiet_noPatch : Quiet noPatch.
Proof. split; [exact I | reflexivity]. Qed.

Lemma Quiet_overPatch (new old : Patch) : Quiet new -> Quiet old -> Quiet (overPatch new old).
Proof.
  intros [Hb1 Hd1] [Hb2 Hd2]. split; [apply Benign_overPatch; assumption|].
  simpl. rewrite Hd1. exact Hd2.
Qed.

Lemma Quiet_Benign (p : Patch) : Quiet p -> Benign p.
Proof. intros [H _]. exact H. Qed.

Lemma Quiet_textPatch (s : string) : Quiet (textPatch s).
Proof. split; [|reflexivity]. unfold Benign. simpl. destruct s; reflexivity. Qed.

Lemma Quiet_classPatch (s : string) : Quiet (classPatch s).
Proof. split; [exact I | reflexivity]. Qed.

Lemma Quiet_opacityPatch (s : string) : Quiet (opacityPatch s).
Proof. split; [exact I | reflexivity]. Qed.

Lemma Quiet_backgroundPatch (s : string) : Quiet (backgroundPatch s).
Proof. split; [exact I | reflexivity]. Qed.

Lemma Quiet_widthPatch (s : string) : Quiet (widthPatch s).
Proof. split; [exact I | reflexivity]. Qed.

Lemma Benign_disabledPatch (b : bool) : Benign (disabledPatch b).
Proof. exact I. Qed.

Lemma quiet_set_textContent (n : nat) (s : string) :
  Patching Quiet (DOM.write n (DOM.set_textContent s)).
Proof.
  apply (patching_write Quiet Quiet_noPatch n _ (textPatch s));
    [apply Quiet_textPatch | reflexivity].
Qed.

Lemma quiet_set_className (n : nat) (s : string) :
  Patching Quiet (DOM.write n (DOM.set_className s)).
Proof.
  apply (patching_write Quiet Quiet_noPatch n _ (classPatch s));
    [apply Quiet_classPatch | reflexivity].
Qed.

Lemma quiet_set_background (n : nat) (s : string) :
  Patching Quiet (DOM.write n (DOM.set_background s)).
Proof.
  apply (patching_write Quiet Quiet_noPatch n _ (backgroundPatch s));
    [apply Quiet_backgroundPatch | reflexivity].
Qed.

Lemma quiet_set_width (n : nat) (s : string) :
  Patching Quiet (DOM.write n (DOM.set_width s)).
Proof.
  apply (patching_write Quiet Quiet_noPatch n _ (widthPatch s));
    [apply Quiet_widthPatch | reflexivity].
Qed.

Lemma benign_set_opacity (n : nat) (s : string) :
  Patching Benign (DOM.write n (DOM.set_opacity s)).
Proof.
  apply (patching_write Benign Benign_noPatch n _ (opacityPatch s));
    [exact I | reflexivity].
Qed.

Lemma benign_set_disabled (n : nat) (b : bool) :
  Patching Benign (DOM.write n (DOM.set_disabled b)).
Proof.
  apply (patching_write Benign Benign_noPatch n _ (disabledPatch b));
    [exact I | reflexivity].
Qed.

Ltac quiet_patching :=
  repeat lazymatch goal with
    | |- Patching _ (_ ∘ _) => apply (patching_compose Quiet Quiet_overPatch)
    | |- Patching _ (onId _ _) => apply (patching_onId Quiet Quiet_noPatch); intros ?
    | |- Patching _ (onSelector _ _ _) =>
        apply (patching_onSelector Quiet Quiet_noPatch); intros ?
    | |- Patching _ (withId _ _) =>
        apply (patching_withId Quiet); intros ?
    | |- Patching _ (withSelector _ _ _) =>
        apply (patching_withSelector Quiet); intros ?
    | |- Patching _ (maybeWrite _ _) =>
        apply (patching_maybeWrite Quiet Quiet_noPatch); intros ?
    | |- Patching _ (maybeWrite2 _ _ _) =>
        apply (patching_maybeWrite2 Quiet Quiet_noPatch Quiet_overPatch); intros ?
    | |- Patching _ (DOM.write _ (DOM.set_textContent _)) => apply quiet_set_textContent
    | |- Patching _ (DOM.write _ (DOM.set_className _)) => apply quiet_set_className
    | |- Patching _ (DOM.write _ (DOM.set_background _)) => apply quiet_set_background
    | |- Patching _ (DOM.write _ (DOM.set_width _)) => apply quiet_set_width
    | |- Patching _ (fun d => if decide _ then d else _) =>
        case_decide; [apply (patching_skip Quiet Quiet_noPatch)|]
    | |- Patching _ (fun d => DOM.write _ (DOM.set_textContent _) d) =>
        apply quiet_set_textContent
    end.

Lemma updateCryptoCard_drawCard (prefix : string) (data : CardData) (d : Document) :
  updateCryptoCard prefix data d = drawCard prefix data d.
Proof. reflexivity. Qed.

Lemma quiet_updateCryptoCard (prefix : string) (data : CardData) :
  Patching Quiet (updateCryptoCard prefix data).
Proof.
  apply (patching_ext _ (drawCard prefix data)); [apply updateCryptoCard_drawCard|].
  unfold drawCard. quiet_patching.
Qed.

Lemma quiet_updateCryptoCards (Number : Type) (numberTruthy : Number -> bool)
      (mockBtcPrice : Number -> string) (insts : gmap string (InstrumentState Number)) :
  Patching Quiet (updateCryptoCards numberTruthy mockBtcPrice insts).
Proof.
  apply (patching_ext _
           (updateCryptoCard "alt"
              (cardOf "Multiple Pairs" (instrumentOrEmpty insts "USD_JPY"))
            ∘ updateCryptoCard "btc"
                (cardOf (btcPriceText numberTruthy mockBtcPrice
                           (instrumentOrEmpty insts "EUR_USD"))
                        (instrumentOrEmpty insts "EUR_USD")))).
  - intros d. unfold updateCryptoCards, compose. reflexivity.
  - apply (patching_compose Quiet Quiet_overPatch); apply quiet_updateCryptoCard.
Qed.

Lemma quiet_drawStats (running : bool) (signals : nat) :
  Patching Quiet (drawStats running signals).
Proof. unfold drawStats. quiet_patching. Qed.

Lemma quiet_updateConnectionStatus (status cls : string) :
  Patching Quiet (updateConnectionStatus status cls).
Proof.
  apply (patching_ext _
           (onId "connection-status"
              (fun n => DOM.write n (DOM.set_className ("status-value " +:+ cls))
                        ∘ DOM.write n (DOM.set_textContent status)))).
  - intros d. unfold updateConnectionStatus, onId.
    destruct (DOM.getElementById d "connection-status"); reflexivity.
  - quiet_patching.
Qed.

Lemma quiet_updateSignalIndicator (text status : string) :
  Patching Quiet (updateSignalIndicator text status).
Proof.
  apply (patching_ext _
           (onId "signalIndicator"
              (fun indicator =>
                 onSelector indicator ".pulse-dot"
                   (fun dot => DOM.write dot (DOM.set_background (getStatusColor status)))
                 ∘ onSelector indicator "span"
                     (fun span => DOM.write span (DOM.set_textContent text))))).
  - intros d. unfold updateSignalIndicator, onId.
    destruct (DOM.getElementById d "signalIndicator"); reflexivity.
  - quiet_patching.
Qed.

Lemma benign_updateBotControls (running : bool) :
  Patching Benign (updateBotControls running).
Proof.
  apply (patching_ext _
           (onId "start-bot"
              (fun startBtn =>
                 onId "stop-bot"
                   (fun stopBtn =>
                      DOM.write stopBtn (DOM.set_opacity (if running then "1" else "0.5"))
                      ∘ DOM.write startBtn
                          (DOM.set_opacity (if running then "0.5" else "1"))
                      ∘ DOM.write stopBtn (DOM.set_disabled (negb running))
                      ∘ DOM.write startBtn (DOM.set_disabled running))))).
  - intros d. unfold updateBotControls, onId.
    destruct (DOM.getElementById d "start-bot"),
      (DOM.getElementById d "stop-bot"), running; reflexivity.
  - repeat lazymatch goal with
      | |- Patching _ (_ ∘ _) => apply (patching_compose Benign Benign_overPatch)
      | |- Patching _ (onId _ _) => apply (patching_onId Benign Benign_noPatch); intros ?
      | |- Patching _ (DOM.write _ (DOM.set_opacity _)) => apply benign_set_opacity
      | |- Patching _ (DOM.write _ (DOM.set_disabled _)) => apply benign_set_disabled
      end.
Qed.

(** ** What drawing keeps *)

Lemma drawing_weaken (Q Q' : Patch -> Prop) (g : Document -> Document) :
  (forall p, Q p -> Q' p) -> Drawing Q g -> Drawing Q' g.
Proof.
  intros HQQ. induction 1 as [g Hg|ts m|g2 g1 _ IH1 _ IH2].
  - apply drawing_patch. exact (patching_weaken Q Q' g HQQ Hg).
  - apply drawing_log.
  - apply drawing_compose; assumption.
Qed.

Lemma drawing_getElementById (Q : Patch -> Prop) (g : Document -> Document)
      (d : Document) (id : string) :
  Drawing Q g -> DOM.getElementById (g d) id = DOM.getElementById d id.
Proof.
  intros Hg. revert d. induction Hg as [g Hg|ts m|g2 g1 _ IH1 _ IH2]; intros d.
  - apply (patching_getElementById Q), Hg.
  - apply getElementById_addLogEntry.
  - unfold compose. rewrite IH2. apply IH1.
Qed.

Lemma disabled_applyPatch (p : Patch) (e : Element) :
  Quiet p -> disabled (applyPatch p e) = disabled e.
Proof. intros [_ Hd]. simpl. rewrite Hd. reflexivity. Qed.

(** Only [updateBotControls] enables or disables an element. *)
Lemma drawing_disabled (g : Document -> Document) (d : Document) (k : nat) :
  Drawing Quiet g -> disabled <$> nodes (g d) !! k = disabled <$> nodes d !! k.
Proof.
  intros Hg. revert d. induction Hg as [g Hg|ts m|g2 g1 _ IH1 _ IH2]; intros d.
  - destruct (patching_node Quiet g d k Hg) as (p & Hp & ->).
    destruct (nodes d !! k) as [e|]; [|reflexivity].
    change (Some (disabled (applyPatch p e)) = Some (disabled e)).
    rewrite disabled_applyPatch by exact Hp. reflexivity.
  - unfold addLogEntry. destruct (DOM.getElementById d "activity-log"); [|reflexivity].
    rewrite nodes_write. case_decide; [|reflexivity].
    destruct (nodes d !! k); reflexivity.
  - unfold compose. rewrite IH2. apply IH1.
Qed.

Lemma children_applyPatch (p : Patch) (e : Element) :
  Benign p ->
  (length (DOM.children (childNodes (applyPatch p e)))
   <= length (DOM.children (childNodes e)))%nat.
Proof.
  unfold Benign. destruct p as [? [cs|] ? ? ? ?]; simpl.
  - intros ->. simpl. lia.
  - intros _. lia.
Qed.

Lemma logEntries_patching (g : Document -> Document) (d : Document) :
  Patching Benign g -> (length (logEntries (g d)) <= length (logEntries d))%nat.
Proof.
  intros Hg. unfold logEntries, DOM.element.
  rewrite (patching_getElementById Benign g d) by exact Hg.
  destruct (DOM.getElementById d "activity-log") as [n|]; [|simpl; lia].
  cbn [mbind option_bind].
  destruct (patching_node Benign g d n Hg) as (p & Hp & ->).
  destruct (nodes d !! n) as [e|]; [|simpl; lia].
  apply (children_applyPatch p e Hp).
Qed.

Lemma logEntries_addLogEntry_bounded (timestamp message : string) (d : Document) :
  (length (logEntries (addLogEntry timestamp message d)) <= 20)%nat.
Proof.
  destruct (DOM.getElementById d "activity-log") as [n|] eqn:Hn.
  - rewrite logEntries_addLogEntry by (rewrite Hn; eauto).
    rewrite length_take. lia.
  - unfold addLogEntry. rewrite Hn, logEntries_absent by exact Hn. simpl. lia.
Qed.

(** No drawing takes the log beyond twenty entries, or beyond what it had. *)
Lemma drawing_logEntries (g : Document -> Document) (d : Document) :
  Drawing Benign g ->
  (length (logEntries (g d)) <= Nat.max 20 (length (logEntries d)))%nat.
Proof.
  intros Hg. revert d. induction Hg as [g Hg|ts m|g2 g1 _ IH1 _ IH2]; intros d.
  - pose proof (logEntries_patching g d Hg). lia.
  - pose proof (logEntries_addLogEntry_bounded ts m d). lia.
  - unfold compose. pose proof (IH2 (g1 d)). pose proof (IH1 d). lia.
Qed.

Lemma updateBotControls_shows (running : bool) (d : Document) :
  controlsShow running (updateBotControls running d).
Proof.
  intros a b Ha Hb Hne.
  rewrite (patching_getElementById Benign _ d) in Ha, Hb
    by apply benign_updateBotControls.
  unfold updateBotControls. rewrite Ha, Hb.
  destruct (getElementById_node _ _ _ Ha) as [ea Hea].
  destruct (getElementById_node _ _ _ Hb) as [eb Heb].
  destruct running; cbv zeta; split;
    rewrite !nodes_write; repeat case_decide; try congruence;
    rewrite ?Hea, ?Heb; reflexivity.
Qed.

Lemma controlsShow_drawing (running : bool) (g : Document -> Document) (d : Document) :
  Drawing Quiet g -> controlsShow running d -> controlsShow running (g d).
Proof.
  intros Hg Hd a b Ha Hb Hne.
  rewrite (drawing_getElementById Quiet g d) in Ha, Hb by exact Hg.
  rewrite !(drawing_disabled g d) by exact Hg. apply Hd; assumption.
Qed.

(** ** More on the dashboard state *)

Section DashboardFurther.

Variable Number : Type.
Variable numberTruthy : Number -> bool.
Variable mockBtcPrice : Number -> string.

Ltac projections :=
  cbn [socket isConnected botRunning instruments signalsToday successRate
       startTime document emitted pendingStatus
       set_isConnected set_running set_instruments set_signalsToday
       draw emit set_pendingStatus] in *.

Ltac open_handlers :=
  unfold handle, onConnect, onDisconnect, onBotStarted, onBotStopped,
         onStatusLoaded, startBot, stopBot, uptimeTick in *.

Ltac open_updateDashboard := unfold updateDashboard, updateStats in *.

Local Abbreviation handle := (handle numberTruthy mockBtcPrice).
Local Abbreviation run := (run numberTruthy mockBtcPrice).
Local Abbreviation updateDashboard := (updateDashboard numberTruthy mockBtcPrice).

(** What a handler emits. *)
Lemma handle_emitted (s : State Number) (e : Event Number) :
  emitted (handle s e)
  = emitted s ++
    match e with
    | ClickStart _ =>
        match DOM.getElementById (document s) "start-bot" with
        | Some _ => if isConnected s && socket s then ["start_bot"] else []
        | None => []
        end
    | ClickStop _ =>
        match DOM.getElementById (document s) "stop-bot" with
        | Some _ => if isConnected s && socket s then ["stop_bot"] else []
        | None => []
        end
    | _ => []
    end.
Proof.
  destruct e as [| |data|now ts|ts|now data| |ts|ts|now]; open_handlers;
    rewrite ?app_nil_r.
  - destruct (socket s); reflexivity.
  - destruct (socket s); reflexivity.
  - destruct (socket s); [|reflexivity].
    apply (updateDashboard_fields Number numberTruthy mockBtcPrice data s).
  - destruct (socket s); reflexivity.
  - destruct (socket s); reflexivity.
  - destruct (pendingStatus s) as [|n]; [reflexivity|].
    match goal with |- context [updateDashboard data ?t] =>
      destruct (updateDashboard_fields Number numberTruthy mockBtcPrice data t)
        as (_ & _ & _ & _ & -> & _) end.
    destruct (snapshotRunning data); reflexivity.
  - destruct (pendingStatus s); reflexivity.
  - destruct (DOM.getElementById _ _); [|symmetry; apply app_nil_r].
    destruct (isConnected s && socket s); [reflexivity|symmetry; apply app_nil_r].
  - destruct (DOM.getElementById _ _); [|symmetry; apply app_nil_r].
    destruct (isConnected s && socket s); [reflexivity|symmetry; apply app_nil_r].
  - destruct (startTimeTruthy _); reflexivity.
Qed.

(** X7: only a click on a button makes the dashboard emit, at most one
    message per click; every other handler emits nothing, and all the
    dashboard ever emits is "start_bot" and "stop_bot". *)
Theorem only_clicks_emit :
  (forall (s : State Number) e,
     (forall timestamp, e <> ClickStart timestamp) ->
     (forall timestamp, e <> ClickStop timestamp) ->
     emitted (handle s e) = emitted s) /\
  (forall (s : State Number) e,
     exists sent, emitted (handle s e) = emitted s ++ sent /\ (length sent <= 1)%nat) /\
  (forall ioWorks page events,
     Forall (fun message => message = "start_bot" \/ message = "stop_bot")
            (emitted (run (construct Number ioWorks page) events))).
Proof.
  split; [|split].
  - intros s e Hstart Hstop. rewrite handle_emitted.
    destruct e as [| | | | | | |ts|ts|]; cbv iota; rewrite ?app_nil_r; try reflexivity.
    + destruct (Hstart ts eq_refl).
    + destruct (Hstop ts eq_refl).
  - intros s e. rewrite handle_emitted. eexists. split; [reflexivity|].
    destruct e; simpl; try lia;
      destruct (DOM.getElementById _ _); simpl; try lia;
      destruct (isConnected s && socket s); simpl; lia.
  - intros io page events.
    apply (run_invariant Number numberTruthy mockBtcPrice
             (fun s => Forall (fun m => m = "start_bot" \/ m = "stop_bot") (emitted s))).
    + intros s e IH. rewrite handle_emitted. apply Forall_app. split; [exact IH|].
      destruct e; cbv iota; try solve [constructor];
        destruct (DOM.getElementById _ _); try solve [constructor];
        destruct (isConnected s && socket s); try solve [constructor];
        (constructor; [auto | constructor]).
    + destruct (construct_fields Number io page) as (_ & _ & _ & _ & _ & ->).
      constructor.
Qed.

(** X8: when [io()] fails the instance has no socket, and nothing that
    happens afterwards connects it: it never emits, never shows the bot
    running, never counts a signal, and every click on the start button is
    answered by the refusal in the log.  The connection slot, when the page
    has one, reads "Connection Failed" after construction. *)
Theorem no_socket_inert (page : Document) (events : list (Event Number)) :
  let s := run (construct Number false page) events in
  (socket s = false /\ isConnected s = false /\ botRunning s = false /\
   startTime s = None /\ emitted s = [] /\ signalsToday s = 0%nat /\
   instruments s = ∅ /\ pendingStatus s = 0%nat) /\
  (forall timestamp,
     handle s (ClickStop timestamp) = s /\
     emitted (handle s (ClickStart timestamp)) = [] /\
     (is_Some (DOM.getElementById (document s) "start-bot") ->
      document (handle s (ClickStart timestamp))
      = addLogEntry timestamp "❌ Cannot start bot - No connection to server"
          (document s))) /\
  (is_Some (DOM.getElementById page "connection-status") ->
   DOM.textContent <$> DOM.element (document (construct Number false page))
                         "connection-status" = Some "Connection Failed" /\
   className <$> DOM.element (document (construct Number false page))
                   "connection-status" = Some "status-value error").
Proof.
  intros s.
  assert (socket s = false /\ isConnected s = false /\ botRunning s = false /\
          startTime s = None /\ emitted s = [] /\ signalsToday s = 0%nat /\
          instruments s = ∅ /\ pendingStatus s = 0%nat) as Hinert.
  { subst s.
    apply (run_invariant Number numberTruthy mockBtcPrice
             (fun s => socket s = false /\ isConnected s = false /\
                       botRunning s = false /\ startTime s = None /\
                       emitted s = [] /\ signalsToday s = 0%nat /\
                       instruments s = ∅ /\ pendingStatus s = 0%nat)).
    - intros t e (Hs & Hc & Hb & Ht & He & Hn & Hi & Hp).
      destruct e; open_handlers; rewrite ?Hs, ?Hc, ?Hp, ?Ht;
        try (repeat split; assumption);
        destruct (DOM.getElementById _ _); projections; repeat split; assumption.
    - repeat split. }
  split; [exact Hinert|].
  destruct Hinert as (Hs & Hc & Hb & Ht & He & Hn & Hi & Hp).
  split.
  - intros ts. open_handlers. rewrite Hc. cbn [andb].
    split; [destruct (DOM.getElementById _ _); reflexivity|].
    split.
    + destruct (DOM.getElementById _ _); projections; exact He.
    + intros [n ->]. reflexivity.
  - intros [n Hn']. unfold construct. projections.
    unfold updateConnectionStatus. rewrite Hn'.
    destruct (getElementById_node _ _ _ Hn') as [el Hel].
    unfold DOM.element. rewrite !getElementById_write, Hn'.
    cbn [mbind option_bind]. rewrite !nodes_write, !decide_True, Hel by reflexivity.
    split; reflexivity.
Qed.

(** X9: the bootstrap response can start the run state but never stop it:
    when it does not report the bot running, [botRunning] and [startTime]
    stay as they are, so a dashboard that was running goes on counting its
    uptime from the old start. *)
Theorem bootstrap_never_stops (s : State Number) (now : Z) (data : Snapshot Number) :
  snapshotRunning data = false ->
  botRunning (handle s (StatusLoaded now data)) = botRunning s /\
  startTime (handle s (StatusLoaded now data)) = startTime s.
Proof.
  intros Hstopped.
  pose proof (handle_running Number numberTruthy mockBtcPrice s (StatusLoaded now data)) as H.
  set (s' := handle s (StatusLoaded now data)) in *. clearbody s'.
  cbv iota in H. rewrite Hstopped in H.
  destruct (pendingStatus s); injection H as -> ->; split; reflexivity.
Qed.

(** X10: the timer only refreshes the uptime slot: it changes no field of
    the instance, emits nothing, and on the page replaces the children of
    the uptime element and nothing else. *)
Theorem tick_only_uptime (s : State Number) (now : Z) :
  let s' := handle s (Tick now) in
  (socket s' = socket s /\ isConnected s' = isConnected s /\
   botRunning s' = botRunning s /\ instruments s' = instruments s /\
   signalsToday s' = signalsToday s /\ successRate s' = successRate s /\
   startTime s' = startTime s /\ emitted s' = emitted s /\
   pendingStatus s' = pendingStatus s) /\
  (forall k, DOM.getElementById (document s) "uptime" <> Some k ->
             nodes (document s') !! k = nodes (document s) !! k) /\
  (forall k e, nodes (document s) !! k = Some e ->
     exists e', nodes (document s') !! k = Some e' /\
       className e' = className e /\ disabled e' = disabled e /\
       opacity e' = opacity e /\ background e' = background e /\
       width e' = width e).
Proof.
  intros s'. subst s'. open_handlers.
  destruct (startTimeTruthy (startTime s)).
  - projections. split; [repeat split|].
    destruct (DOM.getElementById (document s) "uptime") as [n|] eqn:Hn.
    + split.
      * intros k Hk. rewrite nodes_write, decide_False by congruence. reflexivity.
      * intros k e He. rewrite nodes_write. case_decide.
        -- rewrite He. eexists. split; [reflexivity|]. repeat split.
        -- eauto 10.
    + split; [reflexivity|]. eauto 10.
  - split; [repeat split|]. split; [reflexivity|]. eauto 10.
Qed.

Lemma getElementById_updateCryptoCards
      (insts : gmap string (InstrumentState Number)) (d : Document) (id : string) :
  DOM.getElementById (updateCryptoCards numberTruthy mockBtcPrice insts d) id
  = DOM.getElementById d id.
Proof.
  unfold updateCryptoCards. rewrite !getElementById_updateCryptoCard. reflexivity.
Qed.

(** X11: after a snapshot with instruments has been applied, the three
    statistics slots agree with the instance: the market status shows
    whether the bot runs, "signals-today" shows the counter, which is now
    the larger of its old value and the snapshot's count, and
    "success-rate" shows the rate of that counter. *)
Theorem stats_display
        (data : Snapshot Number) (insts : gmap string (InstrumentState Number))
        (s : State Number) (market signals success : nat) :
  snap_instruments data = Some insts ->
  DOM.getElementById (document s) "market-status" = Some market ->
  DOM.getElementById (document s) "signals-today" = Some signals ->
  DOM.getElementById (document s) "success-rate" = Some success ->
  market <> signals -> market <> success -> signals <> success ->
  let s' := updateDashboard data s in
  signalsToday s' = Nat.max (signalsToday s) (countActiveSignals insts) /\
  DOM.textContent <$> nodes (document s') !! market
  = Some (if botRunning s then "🟢 ACTIVE" else "🔴 INACTIVE") /\
  DOM.textContent <$> nodes (document s') !! signals
  = Some (JS.toString (Z.of_nat (signalsToday s'))) /\
  DOM.textContent <$> nodes (document s') !! success
  = Some (JS.toString (Z.of_nat (rateOf (signalsToday s'))) +:+ "%").
Proof.
  intros Hi Hm Hs Hr Hms Hmr Hsr s'.
  assert (signalsToday s' = Nat.max (signalsToday s) (countActiveSignals insts)) as Hcount.
  { destruct (updateDashboard_fields Number numberTruthy mockBtcPrice data s)
      as (_ & _ & _ & _ & _ & _ & H). rewrite Hi in H. exact H. }
  split; [exact Hcount|]. rewrite Hcount. clear Hcount. subst s'.
  open_updateDashboard. rewrite Hi. projections.
  destruct (Nat.ltb_spec (signalsToday s) (countActiveSignals insts)) as [Hlt|Hge];
    [replace (Nat.max (signalsToday s) (countActiveSignals insts))
       with (countActiveSignals insts) by lia
    |replace (Nat.max (signalsToday s) (countActiveSignals insts))
       with (signalsToday s) by lia];
    projections;
    set (D := updateCryptoCards numberTruthy mockBtcPrice insts (document s));
    (assert (DOM.getElementById D "market-status" = Some market) as HDm
       by (unfold D; rewrite getElementById_updateCryptoCards; exact Hm));
    (assert (DOM.getElementById D "signals-today" = Some signals) as HDs
       by (unfold D; rewrite getElementById_updateCryptoCards; exact Hs));
    (assert (DOM.getElementById D "success-rate" = Some success) as HDr
       by (unfold D; rewrite getElementById_updateCryptoCards; exact Hr));
    destruct (getElementById_node _ _ _ HDm) as [em Hem];
    destruct (getElementById_node _ _ _ HDs) as [es Hes];
    destruct (getElementById_node _ _ _ HDr) as [er Her];
    rewrite HDm, getElementById_write, HDs, !getElementById_write, HDr;
    rewrite !nodes_write;
    rewrite ?Hem, ?Hes, ?Her;
    repeat split; repeat case_decide; try congruence;
    match goal with
    | |- DOM.textContent <$> (DOM.set_textContent ?t <$> Some ?e) = _ =>
        change (Some (DOM.textContent (DOM.set_textContent t e)) = Some t);
        rewrite textContent_set_textContent; reflexivity
    end.
Qed.

(** [updateDashboard] on a snapshot with instruments, field by field. *)
Lemma updateDashboard_Some
      (data : Snapshot Number) (insts : gmap string (InstrumentState Number))
      (s : State Number) :
  snap_instruments data = Some insts ->
  updateDashboard data s
  = {| socket := socket s; isConnected := isConnected s; botRunning := botRunning s;
       instruments := insts;
       signalsToday := Nat.max (signalsToday s) (countActiveSignals insts);
       successRate := successRate s; startTime := startTime s;
       document :=
         drawStats (botRunning s) (Nat.max (signalsToday s) (countActiveSignals insts))
           (updateCryptoCards numberTruthy mockBtcPrice insts (document s));
       emitted := emitted s; pendingStatus := pendingStatus s |}.
Proof.
  intros Hi. open_updateDashboard. rewrite Hi. projections.
  unfold drawStats, compose, onId.
  destruct (Nat.ltb_spec (signalsToday s) (countActiveSignals insts)) as [Hlt|Hge];
    [replace (Nat.max (signalsToday s) (countActiveSignals insts))
       with (countActiveSignals insts) by lia
    |replace (Nat.max (signalsToday s) (countActiveSignals insts))
       with (signalsToday s) by lia];
    reflexivity.
Qed.

Lemma quiet_dashboard (running : bool) (signals : nat)
      (insts : gmap string (InstrumentState Number)) :
  Patching Quiet
    (drawStats running signals ∘ updateCryptoCards numberTruthy mockBtcPrice insts).
Proof.
  apply (patching_compose Quiet Quiet_overPatch);
    [apply quiet_updateCryptoCards | apply quiet_drawStats].
Qed.

(** X12: applying the same snapshot a second time changes nothing: the
    counter keeps its value and every slot is rewritten with what it
    already shows. *)
Theorem updateDashboard_idempotent (data : Snapshot Number) (s : State Number) :
  updateDashboard data (updateDashboard data s) = updateDashboard data s /\
  handle (handle s (StatusUpdate data)) (StatusUpdate data) = handle s (StatusUpdate data).
Proof.
  assert (updateDashboard data (updateDashboard data s) = updateDashboard data s) as Hidem.
  { destruct (snap_instruments data) as [insts|] eqn:Hi.
    - rewrite (updateDashboard_Some data insts s Hi).
      rewrite (updateDashboard_Some data insts _ Hi). projections.
      rewrite <- !Nat.max_assoc, !Nat.max_id.
      f_equal.
      apply (patching_idempotent_compose Quiet
               (drawStats (botRunning s)
                          (Nat.max (signalsToday s) (countActiveSignals insts)))
               (updateCryptoCards numberTruthy mockBtcPrice insts)).
      apply quiet_dashboard.
    - open_updateDashboard. rewrite Hi. reflexivity. }
  split; [exact Hidem|].
  open_handlers.
  destruct (socket s) eqn:Hs; [|rewrite Hs; reflexivity].
  destruct (updateDashboard_fields Number numberTruthy mockBtcPrice data s) as (-> & _).
  rewrite Hs. exact Hidem.
Qed.

Lemma updateDashboard_drawing (data : Snapshot Number) (s : State Number) :
  exists g, Drawing Quiet g /\ document (updateDashboard data s) = g (document s).
Proof.
  destruct (snap_instruments data) as [insts|] eqn:Hi.
  - rewrite (updateDashboard_Some data insts s Hi). projections.
    exists (drawStats (botRunning s)
                      (Nat.max (signalsToday s) (countActiveSignals insts))
            ∘ updateCryptoCards numberTruthy mockBtcPrice insts).
    split; [apply drawing_patch, quiet_dashboard | unfold compose; reflexivity].
  - open_updateDashboard. rewrite Hi. exists (fun d => d).
    split; [apply drawing_patch, (patching_skip Quiet Quiet_noPatch) | reflexivity].
Qed.

Lemma drawing_skip : Drawing Quiet (fun d => d).
Proof. apply drawing_patch, (patching_skip Quiet Quiet_noPatch). Qed.

(** The page after a handler: either the run state is as before and the
    page was drawn on without touching the buttons, or the buttons were set
    to the new run state and drawing went on around that. *)
Lemma handle_drawing (s : State Number) (e : Event Number) :
  if setsControls s e then
    exists g g0, Drawing Quiet g /\ Drawing Quiet g0 /\
      document (handle s e)
      = g (updateBotControls (botRunning (handle s e)) (g0 (document s)))
  else
    botRunning (handle s e) = botRunning s /\
    exists g, Drawing Quiet g /\ document (handle s e) = g (document s).
Proof.
  destruct e as [| |data|now ts|ts|now data| |ts|ts|now]; unfold setsControls.
  - open_handlers. destruct (socket s); projections.
    + split; [reflexivity|]. eexists. split; [|reflexivity].
      apply drawing_patch, quiet_updateConnectionStatus.
    + split; [reflexivity|]. exists (fun d => d). split; [apply drawing_skip|reflexivity].
  - open_handlers. destruct (socket s); projections.
    + split; [reflexivity|]. eexists. split; [|reflexivity].
      apply drawing_patch, quiet_updateConnectionStatus.
    + split; [reflexivity|]. exists (fun d => d). split; [apply drawing_skip|reflexivity].
  - open_handlers. destruct (socket s).
    + split; [apply (updateDashboard_fields Number numberTruthy mockBtcPrice data s)|].
      apply updateDashboard_drawing.
    + split; [reflexivity|]. exists (fun d => d). split; [apply drawing_skip|reflexivity].
  - open_handlers. destruct (socket s); projections.
    + exists (addLogEntry ts "🚀 Trading bot started - Analyzing crypto markets"
              ∘ updateSignalIndicator "🚀 Bot Active - Scanning Markets..." "active"),
             (fun d => d).
      split; [|split; [apply drawing_skip|reflexivity]].
      apply drawing_compose;
        [apply drawing_patch, quiet_updateSignalIndicator | apply drawing_log].
    + split; [reflexivity|].
      exists (fun d => d). split; [apply drawing_skip|reflexivity].
  - open_handlers. destruct (socket s); projections.
    + exists (addLogEntry ts "⏸️ Trading bot stopped"
              ∘ updateSignalIndicator "⏸️ Bot Stopped" "stopped"),
             (fun d => d).
      split; [|split; [apply drawing_skip|reflexivity]].
      apply drawing_compose;
        [apply drawing_patch, quiet_updateSignalIndicator | apply drawing_log].
    + split; [reflexivity|].
      exists (fun d => d). split; [apply drawing_skip|reflexivity].
  - open_handlers. destruct (pendingStatus s) as [|n]; cbn [Nat.eqb negb].
    + split; [reflexivity|].
      exists (fun d => d). split; [apply drawing_skip|reflexivity].
    + match goal with |- context [updateDashboard data ?t] =>
        destruct (updateDashboard_drawing data t) as (g & Hg & Hdoc);
        destruct (updateDashboard_fields Number numberTruthy mockBtcPrice data t)
          as (_ & _ & Hrun & _)
      end.
      rewrite Hdoc, Hrun. clear Hdoc Hrun.
      destruct (snapshotRunning data); projections.
      * exists g, (updateSignalIndicator "🚀 Bot Active - Scanning Markets..." "active").
        split; [exact Hg|].
        split; [apply drawing_patch, quiet_updateSignalIndicator | reflexivity].
      * exists g, (fun d => d). split; [exact Hg|].
        split; [apply drawing_skip | reflexivity].
  - open_handlers. destruct (pendingStatus s); split; try reflexivity;
      exists (fun d => d); (split; [apply drawing_skip|reflexivity]).
  - open_handlers.
    destruct (DOM.getElementById (document s) "start-bot");
      [destruct (isConnected s && socket s)|]; projections;
      (split; [reflexivity|]);
      first [ eexists; split; [apply drawing_log | reflexivity]
            | exists (fun d => d); split; [apply drawing_skip|reflexivity] ].
  - open_handlers.
    destruct (DOM.getElementById (document s) "stop-bot");
      [destruct (isConnected s && socket s)|]; projections;
      (split; [reflexivity|]);
      first [ eexists; split; [apply drawing_log | reflexivity]
            | exists (fun d => d); split; [apply drawing_skip|reflexivity] ].
  - open_handlers. destruct (startTimeTruthy (startTime s)); projections.
    + split; [reflexivity|].
      exists (onId "uptime"
                (fun n => DOM.write n
                   (DOM.set_textContent (formatUptime (now - default 0 (startTime s)))))).
      split; [|reflexivity].
      apply drawing_patch, (patching_onId Quiet Quiet_noPatch). intros n.
      apply quiet_set_textContent.
    + split; [reflexivity|].
      exists (fun d => d). split; [apply drawing_skip|reflexivity].
Qed.

(** X13: the buttons follow the run state.  Every handler of [bot_started],
    [bot_stopped] or the bootstrap response leaves the start button disabled
    exactly when the bot runs and the stop button exactly when it does not,
    and no other handler disturbs that: snapshots, log entries, the timer
    and the connection events never enable or disable a button. *)
Theorem controls_follow_botRunning :
  (forall (s : State Number) e,
     controlsShow (botRunning s) (document s) ->
     controlsShow (botRunning (handle s e)) (document (handle s e))) /\
  (forall (s : State Number) e,
     setsControls s e = true ->
     controlsShow (botRunning (handle s e)) (document (handle s e))) /\
  (forall (s : State Number) e,
     botRunning (handle s e) <> botRunning s -> setsControls s e = true).
Proof.
  assert (forall (s : State Number) e,
            setsControls s e = true ->
            controlsShow (botRunning (handle s e)) (document (handle s e))) as Hset.
  { intros s e Hsets. pose proof (handle_drawing s e) as H. rewrite Hsets in H.
    destruct H as (g & g0 & Hg & Hg0 & ->).
    apply controlsShow_drawing; [exact Hg|]. apply updateBotControls_shows. }
  split; [|split; [exact Hset|]].
  - intros s e Hshow. destruct (setsControls s e) eqn:Hsets; [apply Hset, Hsets|].
    pose proof (handle_drawing s e) as H. rewrite Hsets in H.
    destruct H as (-> & g & Hg & ->). apply controlsShow_drawing; assumption.
  - intros s e Hchange. destruct (setsControls s e) eqn:Hsets; [reflexivity|].
    pose proof (handle_drawing s e) as H. rewrite Hsets in H.
    destruct H as (Hsame & _). contradiction.
Qed.

(** X14: the log never grows beyond twenty entries: a handler leaves at
    most twenty, or no more than it found, and on a page that starts with
    at most twenty entries the log holds at most twenty after any sequence
    of events. *)
Theorem log_never_exceeds_20 :
  (forall (s : State Number) e,
     (length (logEntries (document (handle s e)))
      <= Nat.max 20 (length (logEntries (document s))))%nat) /\
  (forall ioWorks page events,
     (length (logEntries page) <= 20)%nat ->
     (length (logEntries (document (run (construct Number ioWorks page) events)))
      <= 20)%nat).
Proof.
  assert (forall (s : State Number) e,
            (length (logEntries (document (handle s e)))
             <= Nat.max 20 (length (logEntries (document s))))%nat) as Hstep.
  { intros s e. pose proof (handle_drawing s e) as H.
    destruct (setsControls s e).
    - destruct H as (g & g0 & Hg & Hg0 & ->).
      apply (drawing_weaken Quiet Benign _ Quiet_Benign) in Hg, Hg0.
      pose proof (drawing_logEntries g
                    (updateBotControls (botRunning (handle s e)) (g0 (document s))) Hg).
      pose proof (logEntries_patching (updateBotControls (botRunning (handle s e)))
                    (g0 (document s)) (benign_updateBotControls _)).
      pose proof (drawing_logEntries g0 (document s) Hg0). lia.
    - destruct H as (_ & g & Hg & ->).
      apply (drawing_weaken Quiet Benign _ Quiet_Benign) in Hg.
      apply drawing_logEntries, Hg. }
  split; [exact Hstep|].
  intros io page events Hpage.
  apply (run_invariant Number numberTruthy mockBtcPrice
           (fun s => (length (logEntries (document s)) <= 20)%nat)).
  - intros s e IH. pose proof (Hstep s e). lia.
  - unfold construct. destruct io; projections; [exact Hpage|].
    pose proof (logEntries_patching (updateConnectionStatus "Connection Failed" "error")
                  page (patching_weaken Quiet Benign _ Quiet_Benign
                          (quiet_updateConnectionStatus _ _))).
    lia.
Qed.

(** X15: commands clicked while disconnected are dropped, not queued: from
    a disconnected state, as long as no [connect] arrives, nothing is
    emitted whatever else happens, and the dashboard stays disconnected. *)
Theorem disconnected_drops_commands (s : State Number) (events : list (Event Number)) :
  isConnected s = false ->
  Forall (fun e => e <> Connect) events ->
  emitted (run s events) = emitted s /\ isConnected (run s events) = false.
Proof.
  revert s. induction events as [|e events IH]; intros s Hd Hev.
  - split; [reflexivity | exact Hd].
  - apply Forall_cons in Hev as [He Hev].
    rewrite run_cons.
    assert (isConnected (handle s e) = false) as Hd'.
    { destruct (handle_connection Number numberTruthy mockBtcPrice s e) as [_ ->].
      destruct e; try exact Hd; [contradiction | destruct (socket s); auto]. }
    assert (emitted (handle s e) = emitted s) as He'.
    { rewrite handle_emitted, Hd.
      destruct e; cbn [andb]; rewrite ?app_nil_r; try reflexivity;
        destruct (DOM.getElementById _ _); apply app_nil_r. }
    destruct (IH (handle s e) Hd' Hev) as [-> ->]. split; [exact He' | reflexivity].
Qed.

End DashboardFurther.

Lemma only_clicks_emit_witness :
  emitted (handle demoTruthy demoPrice demoState (StatusUpdate demoSnapshot))
  = emitted demoState.
Proof.
  destruct (only_clicks_emit Z demoTruthy demoPrice) as (H & _).
  apply (H demoState (StatusUpdate demoSnapshot)); discriminate.
Defined.

Lemma no_socket_inert_witness :
  DOM.textContent <$> DOM.element (document (construct Z false demoPage))
                        "connection-status" = Some "Connection Failed" /\
  className <$> DOM.element (document (construct Z false demoPage))
                  "connection-status" = Some "status-value error".
Proof.
  destruct (no_socket_inert Z demoTruthy demoPrice demoPage []) as (_ & _ & H).
  apply H. exists 2%nat. vm_compute. reflexivity.
Defined.

Lemma bootstrap_never_stops_witness :
  let s := run demoTruthy demoPrice demoState [BotStarted 1000 "10:00:00"; Connect] in
  let data := {| snap_bot_running := Some false; snap_instruments := None |} in
  botRunning (handle demoTruthy demoPrice s (StatusLoaded 9000 data)) = botRunning s /\
  startTime (handle demoTruthy demoPrice s (StatusLoaded 9000 data)) = startTime s.
Proof.
  intros s data.
  apply (bootstrap_never_stops Z demoTruthy demoPrice s 9000 data). reflexivity.
Defined.

Lemma tick_only_uptime_witness :
  nodes (document (handle demoTruthy demoPrice demoState (Tick 5))) !! 3%nat
  = nodes (document demoState) !! 3%nat.
Proof.
  destruct (tick_only_uptime Z demoTruthy demoPrice demoState 5) as (_ & H & _).
  apply (H 3%nat). vm_compute. discriminate.
Defined.

Lemma stats_display_witness :
  let s' := updateDashboard demoTruthy demoPrice demoSnapshot demoState in
  signalsToday s'
  = Nat.max (signalsToday demoState)
            (countActiveSignals (default ∅ (snap_instruments demoSnapshot))) /\
  DOM.textContent <$> nodes (document s') !! 13%nat
  = Some (if botRunning demoState then "🟢 ACTIVE" else "🔴 INACTIVE") /\
  DOM.textContent <$> nodes (document s') !! 14%nat
  = Some (JS.toString (Z.of_nat (signalsToday s'))) /\
  DOM.textContent <$> nodes (document s') !! 15%nat
  = Some (JS.toString (Z.of_nat (rateOf (signalsToday s'))) +:+ "%").
Proof.
  apply (stats_display Z demoTruthy demoPrice demoSnapshot
           (default ∅ (snap_instruments demoSnapshot)) demoState 13%nat 14%nat 15%nat);
    first [lia | reflexivity | vm_compute; reflexivity].
Defined.

Lemma controls_follow_botRunning_witness :
  controlsShow
    (botRunning (handle demoTruthy demoPrice demoState (BotStarted 1000 "10:00:00")))
    (document (handle demoTruthy demoPrice demoState (BotStarted 1000 "10:00:00"))).
Proof.
  destruct (controls_follow_botRunning Z demoTruthy demoPrice) as (_ & H & _).
  apply (H demoState (BotStarted 1000 "10:00:00")). reflexivity.
Defined.

Lemma log_never_exceeds_20_witness :
  (length (logEntries
             (document (run demoTruthy demoPrice (construct Z true demoPage)
                          [Connect; ClickStart "10:00:00"; BotStarted 1000 "10:00:01"])))
   <= 20)%nat.
Proof.
  destruct (log_never_exceeds_20 Z demoTruthy demoPrice) as (_ & H).
  apply (H true demoPage). vm_compute. lia.
Defined.

Lemma disconnected_drops_commands_witness :
  emitted (run demoTruthy demoPrice demoState
             [ClickStart "10:00:00"; ClickStop "10:00:01"; Disconnect])
  = emitted demoState /\
  isConnected (run demoTruthy demoPrice demoState
                 [ClickStart "10:00:00"; ClickStop "10:00:01"; Disconnect]) = false.
Proof.
  apply (disconnected_drops_commands Z demoTruthy demoPrice demoState).
  - reflexivity.
  - repeat constructor; discriminate.
Defined.
